(** * OpenLLM bundle packaging: a shallow embedding and its properties

    The development follows two source files of the repository:

    - [openllm-python/src/openllm/bundle/_package.py]: the editable-wheel
      builder [build_editable], the option constructors
      [construct_python_options] and [construct_docker_options], and the
      bundle assembler [create_bento];
    - [src/openllm/models/falcon/__init__.py]: the lazy import structure of
      the Falcon model package.

    Python values are modelled by the data they carry: [str] as [string],
    [dict[str, str]] as [gmap string string], [Optional[T]] as [option T],
    lists and tuples as [list].  Code that raises returns a [result]; code
    that touches the staging filesystem threads it as explicit state. *)

From Stdlib Require Import String Ascii ZArith List.
From stdpp Require Import gmap strings list fin_maps pretty.

Open Scope string_scope.
Open Scope list_scope.

(** ** Python runtime fragments used by the source *)

Module Py.

(** The line-feed character and the double quote, by their codes. *)
Definition LF : ascii := "010"%char.
Definition DQUOTE : ascii := "034"%char.

Definition nl : string := String LF "".
Definition dq3 : string := String DQUOTE (String DQUOTE (String DQUOTE "")).

(** A finite binary float [mantissa * 2 ^ exponent]; the source only passes
    floats around and prints them. *)
Record float := Float { mantissa : Z; exponent : Z }.

(** Exceptions raised by the modelled code.  [Propagated] carries a failure
    of an external collaborator (build tool, bundler) that the source lets
    through unmodified. *)
Inductive exn :=
| RuntimeError (msg : string)
| KeyError (key : string)
| ValueError (msg : string)
| Propagated (what : string).

Inductive result (A : Type) :=
| Ok (a : A)
| Raise (e : exn).
Arguments Ok {A} a.
Arguments Raise {A} e.

(** [bool(s)] for a string and for an optional string. *)
Definition truthy (s : string) : bool :=
  match s with "" => false | String _ _ => true end.

Definition truthy_opt (o : option string) : bool :=
  match o with None => false | Some s => truthy s end.

(** [str(b)] for a bool. *)
Definition str_bool (b : bool) : string := if b then "True" else "False".

(** [str(n)] for an [int] or [None]. *)
Definition str_opt_int (o : option Z) : string :=
  match o with None => "None" | Some n => pretty n end.

(** [s.split(sep)] for a one-character separator. *)
Fixpoint split (sep : ascii) (s : string) : list string :=
  match s with
  | "" => [""]
  | String c s' =>
      if Ascii.eqb c sep then "" :: split sep s'
      else match split sep s' with
           | h :: t => String c h :: t
           | [] => [String c ""]
           end
  end.

(** [l[-1]] on the result of a split, which is never empty. *)
Definition last_item (l : list string) : string := List.last l "".

(** [s.replace(old, new)] for one-character [old] and [new]. *)
Fixpoint replace (old new : ascii) (s : string) : string :=
  match s with
  | "" => ""
  | String c s' => String (if Ascii.eqb c old then new else c) (replace old new s')
  end.

(** [all(i for i in l)] over optional strings. *)
Definition all_truthy (l : list (option string)) : bool := forallb truthy_opt l.

(** Keyword arguments of [str.format], already converted with [str]. *)
Definition kwargs := list (string * string).

Fixpoint kw_get (k : string) (kw : kwargs) : option string :=
  match kw with
  | [] => None
  | (k', v) :: kw' => if String.eqb k k' then Some v else kw_get k kw'
  end.

(** [template.format] applied to keyword arguments, for templates whose
    replacement fields are plain names: [{name}] is replaced by the keyword's
    value, doubled braces stand for a literal brace.  [field] holds the
    characters of the field being read (in reverse), when inside one. *)
Fixpoint format_from (field : option string) (t : string) (kw : kwargs) : result string :=
  match t with
  | "" =>
      match field with
      | None => Ok ""
      | Some _ => Raise (ValueError "expected '}' before end of string")
      end
  | String c t' =>
      match field with
      | None =>
          if Ascii.eqb c "{" then
            match t' with
            | String "{" t'' =>
                match format_from None t'' kw with
                | Ok r => Ok (String "{" r)
                | Raise e => Raise e
                end
            | "" => Raise (ValueError "Single '{' encountered in format string")
            | _ => format_from (Some "") t' kw
            end
          else if Ascii.eqb c "}" then
            match t' with
            | String "}" t'' =>
                match format_from None t'' kw with
                | Ok r => Ok (String "}" r)
                | Raise e => Raise e
                end
            | _ => Raise (ValueError "Single '}' encountered in format string")
            end
          else
            match format_from None t' kw with
            | Ok r => Ok (String c r)
            | Raise e => Raise e
            end
      | Some name =>
          if Ascii.eqb c "}" then
            match kw_get (String.rev name) kw with
            | Some v =>
                match format_from None t' kw with
                | Ok r => Ok (v +:+ r)
                | Raise e => Raise e
                end
            | None => Raise (KeyError (String.rev name))
            end
          else format_from (Some (String c name)) t' kw
      end
  end.

Definition format (t : string) (kw : kwargs) : result string := format_from None t kw.

(** A string that holds no line feed. *)
Fixpoint single_line (s : string) : bool :=
  match s with
  | "" => true
  | String c s' => negb (Ascii.eqb c LF) && single_line s'
  end.

(** [s.split('\n')]: the physical lines of a text. *)
Definition lines (s : string) : list string := split LF s.

(** [c in s] for a character. *)
Fixpoint occurs (c : ascii) (s : string) : bool :=
  match s with
  | "" => false
  | String c' s' => Ascii.eqb c' c || occurs c s'
  end.

End Py.

(** ** [openllm/bundle/_package.py] *)

Module Package.
Import Py.

(** *** Data *)

(** [bentoml.Tag]: a name and an optional version. *)
Record Tag := { tag_name : string; tag_version : option string }.

(** The entries of [llm.config] that the source reads. *)
Record LLMConfig := {
  cfg_requirements : option (list string);
  cfg_timeout : Z;
  cfg_serialisation : string;
  cfg_start_name : string;
  cfg_service_name : string;
}.

(** The attributes of the [llm] object that the source reads. *)
Record LLM := {
  model_id : string;
  tag : Tag;
  config : LLMConfig;
  identifying_params : gmap string string;
  llm_type : string;
  __llm_backend__ : string;
  trust_remote_code : bool;
  _max_model_len : option Z;
  _gpu_memory_utilization : float;
  _serialisation : string;
}.

Record PythonOptions := {
  packages : list string;
  wheels : option (list string);
  lock_packages : bool;
}.

Record DockerOptions := {
  python_version : string;
  env : gmap string string;
  dockerfile_template : option string;
}.

Record ModelSpec := { spec_tag : string; spec_alias : string }.

Record BentoBuildConfig := {
  service : string;
  name : string;
  labels : gmap string string;
  models : list ModelSpec;
  description : string;
  include : list string;
  exclude : list string;
  python : PythonOptions;
  docker : DockerOptions;
}.

(** The artifact: what [bentoml.Bento.create] is given. *)
Record Bento := {
  version : option string;
  build_ctx : string;
  build_config : BentoBuildConfig;
}.

(** What the external wheel build comes back with. *)
Inductive build_outcome :=
| Built (wheel : string)
| BuildFailed (why : string).

(** The staging filesystem [llm_fs]: its files, and the texts handed to
    [writetext] so far, oldest first. *)
Record FS := {
  fs_files : gmap string string;
  fs_writes : list (string * string);
}.

(** *** Collaborators

    Everything the source calls but does not define: helpers of
    [openllm_core] and [openllm_cli], the standard library, [orjson], the
    [build] tool and the [bentoml] bundler.  They are taken as given. *)
Record World := {
  (** [check_bool_env(name, default)] on the process environment *)
  check_bool_env : string → bool → bool;
  (** [first_not_none(value, default=...)] *)
  first_not_none : option string → string → string;
  (** [pkg.source_locations(package)] *)
  source_locations : string → option string;
  (** [pathlib.Path(p).parent] and [pathlib.Path(p) / q] *)
  path_parent : string → string;
  path_join : string → string → string;
  (** [os.path.isfile(p)] *)
  isfile : string → bool;
  (** the isolated wheel build of lines 29-34: project directory, output
      directory and the files of the output directory; the wheel's path, or
      the build tool's failure *)
  build_wheel : string → string → gmap string string → build_outcome * gmap string string;
  (** [RefResolver.from_strategy("release").version] *)
  release_version : string;
  (** [llm_fs.getsyspath(p)] *)
  getsyspath : string → string;
  (** [process_environ(config, server_timeout, wpr, device, cors, model_id,
      adapter_map, serialisation, llm, use_current_env=...)] *)
  process_environ :
    LLMConfig → Z → float → option string → bool → string →
    option (gmap string string) → string → LLM → bool → gmap string string;
  (** [orjson.dumps(adapter_map).decode()] *)
  orjson_dumps : option (gmap string string) → string;
  (** [importlib.metadata.version(package)] *)
  metadata_version : string → string;
  (** [str(tag)] and [str(x)] for a float *)
  str_tag : Tag → string;
  str_float : float → string;
  (** the text of [_service.py] *)
  service_file_text : string;
  (** [Bento.create(...).save(...)]: [None] when the artifact is built and
      stored, the bundler's failure otherwise *)
  bento_create_save : Bento → option string;
}.

(** *** The computation monad: staging filesystem state and exceptions *)

Definition M (A : Type) : Type := FS → result A * FS.

Definition ret {A} (a : A) : M A := λ fs, (Ok a, fs).
Definition raise {A} (e : exn) : M A := λ fs, (Raise e, fs).
Definition bind {A B} (m : M A) (k : A → M B) : M B :=
  λ fs, match m fs with
        | (Ok a, fs') => k a fs'
        | (Raise e, fs') => (Raise e, fs')
        end.
Definition lift {A} (r : result A) : M A := λ fs, (r, fs).

Notation "'let!' x ':=' m 'in' k" := (bind m (λ x, k))
  (at level 10, x name, m at level 100, k at level 200, only parsing).
Notation "'do!' m 'in' k" := (bind m (λ _, k))
  (at level 10, m at level 100, k at level 200, only parsing).

(** [[f(x) for x in l]] for an effectful [f]. *)
Fixpoint mapM {A B} (f : A → M B) (l : list A) : M (list B) :=
  match l with
  | [] => ret []
  | x :: l' => let! y := f x in let! ys := mapM f l' in ret (y :: ys)
  end.

(** [llm_fs.writetext(path, text)] *)
Definition writetext (path text : string) : M unit :=
  λ fs, (Ok tt, {| fs_files := <[path := text]> (fs_files fs);
                   fs_writes := fs_writes fs ++ [(path, text)] |}).

(** The texts handed to [writetext] between two states of the staging
    filesystem. *)
Definition written (before after : FS) : list (string * string) :=
  drop (length (fs_writes before)) (fs_writes after).

(** [list(llm_fs.walk.files())] *)
Definition walk_files : M (list string) :=
  λ fs, (Ok (map_to_list (fs_files fs)).*1, fs).

(** *** Module constants *)

Definition OPENLLM_DEV_BUILD : string := "OPENLLM_DEV_BUILD".

Definition _SERVICE_VARS : string :=
  "import orjson;model_id,model_tag,adapter_map,serialization,trust_remote_code,max_model_len,gpu_memory_utilization='{__model_id__}','{__model_tag__}',orjson.loads("
  +:+ dq3 +:+ "{__model_adapter_map__}" +:+ dq3
  +:+ "),'{__model_serialization__}',{__model_trust_remote_code__},{__max_model_len__},{__gpu_memory_utilization__}".

Section WithWorld.
Variable W : World.

(** *** [build_editable]

    The function-level imports (lines 21-22, 39 and 57) are taken to
    succeed. *)

(** Lines 29-34: the build tool works on the files of the output directory;
    it does not go through [writetext]. *)
Definition run_build (project_dir path : string) : M string :=
  λ fs, let '(outcome, files) := build_wheel W project_dir path (fs_files fs) in
        (match outcome with
         | Built wheel => Ok wheel
         | BuildFailed why => Raise (Propagated why)
         end,
         {| fs_files := files; fs_writes := fs_writes fs |}).

Definition build_editable (path : string) (package : string) : M (option string) :=
  if negb (check_bool_env W OPENLLM_DEV_BUILD false) then ret None
  else
    match source_locations W package with
    | Some module_location =>
        if truthy module_location then
          let pyproject_path :=
            path_join W (path_parent W (path_parent W module_location)) "pyproject.toml" in
          if isfile W pyproject_path then
            let! wheel := run_build (path_parent W pyproject_path) path in
            ret (Some wheel)
          else raise (RuntimeError "Please install OpenLLM from PyPI or built it from Git source.")
        else raise (RuntimeError "Could not find the source location of OpenLLM.")
    | None => raise (RuntimeError "Could not find the source location of OpenLLM.")
    end.

(** *** [construct_python_options] *)

(** Lines 41-47: the requirement list. *)
Definition python_packages (llm : LLM) (extra_dependencies : option (list string))
    (adapter_map : option (gmap string string)) : list string :=
  let packages :=
    ["scipy"; "bentoml[tracing]>=1.1.11,<1.2"; "openllm[vllm]>=" +:+ release_version W] in
  let packages :=
    match adapter_map with
    | Some _ => packages ++ ["openllm[fine-tune]"]
    | None => packages
    end in
  let packages :=
    match extra_dependencies with
    | Some deps => packages ++ ((λ k, "openllm[" +:+ k +:+ "]") <$> deps)
    | None => packages
    end in
  match cfg_requirements (config llm) with
  | Some reqs => packages ++ reqs
  | None => packages
  end.

(** Line 51: the wheel list, from the outcomes of the three builds. *)
Definition wheel_paths (built_wheels : list (option string)) : option (list string) :=
  if all_truthy built_wheels then
    Some (omap (λ i : option string,
                  w ← i; Some (getsyspath W ("/" +:+ last_item (split "/" w))))
               built_wheels)
  else None.

(** Line 48: the three builds, in order. *)
Definition built_wheels : M (list (option string)) :=
  mapM (build_editable (getsyspath W "/")) ["openllm_core"; "openllm_client"; "openllm"].

Definition construct_python_options (llm : LLM) (extra_dependencies : option (list string))
    (adapter_map : option (gmap string string)) : M PythonOptions :=
  let packages := python_packages llm extra_dependencies adapter_map in
  let! built_wheels := built_wheels in
  ret {| packages := packages;
         wheels := wheel_paths built_wheels;
         lock_packages := false |}.

(** *** [construct_docker_options] *)

(** [environ[key]], which raises [KeyError] on a missing key. *)
Definition getitem (environ : gmap string string) (key : string) : result string :=
  match environ !! key with
  | Some v => Ok v
  | None => Raise (KeyError key)
  end.

Definition construct_docker_options (llm : LLM) (quantize : option string)
    (adapter_map : option (gmap string string)) (dockerfile_template : option string)
    (serialisation : string) : M DockerOptions :=
  let environ :=
    process_environ W (config llm) (cfg_timeout (config llm)) (Float 1 0) None true
      (model_id llm) None (_serialisation llm) llm false in
  let! openllm_config := lift (getitem environ "OPENLLM_CONFIG") in
  let environ := <["OPENLLM_CONFIG" := "'" +:+ openllm_config +:+ "'"]> environ in
  let environ := delete "BENTOML_HOME" environ in
  let environ := <["NVIDIA_DRIVER_CAPABILITIES" := "compute,utility"]> environ in
  ret {| python_version := "3.11"; env := environ; dockerfile_template := dockerfile_template |}.

(** *** [create_bento] *)

(** Line 88: the version stamps of the three distributions. *)
Definition version_labels : gmap string string :=
  foldr (λ package acc,
           <[replace "-" "_" package +:+ "_version" := metadata_version W package]> acc)
        ∅ ["openllm"; "openllm-core"; "openllm-client"].

(** Lines 81-91: the labels. [d.update(e)] keeps the entries of [e] on a
    clash, which is the left-biased union [e ∪ d]. *)
Definition bento_labels (llm : LLM) (adapter_map : option (gmap string string))
    : gmap string string :=
  let labels := identifying_params llm in
  let labels :=
    (<["_type" := llm_type llm]>
      (<["_framework" := __llm_backend__ llm]>
        (<["start_name" := cfg_start_name (config llm)]>
          (<["base_name_or_path" := model_id llm]>
            (<["bundler" := "openllm.bundle"]> version_labels))))) ∪ labels in
  match adapter_map with
  | Some m => if decide (m = ∅) then labels else m ∪ labels
  | None => labels
  end.

(** Lines 95-103: the generated [_service_vars.py]. *)
Definition service_vars_script (llm : LLM) (adapter_map : option (gmap string string))
    : result string :=
  match format _SERVICE_VARS
          [("__model_id__", model_id llm);
           ("__model_tag__", str_tag W (tag llm));
           ("__model_adapter_map__", orjson_dumps W adapter_map);
           ("__model_serialization__", cfg_serialisation (config llm));
           ("__model_trust_remote_code__", str_bool (trust_remote_code llm));
           ("__max_model_len__", str_opt_int (_max_model_len llm));
           ("__gpu_memory_utilization__", str_float W (_gpu_memory_utilization llm))]
  with
  | Ok vars =>
      Ok ("# fmt: off" +:+ nl +:+ "# GENERATED BY 'openllm build " +:+ model_id llm
          +:+ "'. DO NOT EDIT" +:+ nl +:+ vars)
  | Raise e => Raise e
  end.

Definition create_bento (bento_tag : Tag) (llm : LLM) (quantize : option string)
    (dockerfile_template : option string) (adapter_map : option (gmap string string))
    (extra_dependencies : option (list string)) (serialisation : option string) : M Bento :=
  let _serialisation := first_not_none W serialisation (cfg_serialisation (config llm)) in
  let labels := bento_labels llm adapter_map in
  let! script := lift (service_vars_script llm adapter_map) in
  do! writetext "_service_vars.py" script in
  let service_src := service_file_text W in
  do! writetext (cfg_service_name (config llm)) service_src in
  let! files := walk_files in
  let! python_options := construct_python_options llm extra_dependencies adapter_map in
  let! docker_options :=
    construct_docker_options llm quantize adapter_map dockerfile_template _serialisation in
  let bento :=
    {| version := tag_version bento_tag;
       build_ctx := getsyspath W "/";
       build_config :=
         {| service := cfg_service_name (config llm) +:+ ":svc";
            name := tag_name bento_tag;
            labels := labels;
            models := [{| spec_tag := str_tag W (tag llm); spec_alias := tag_name (tag llm) |}];
            description := "OpenLLM service for " +:+ cfg_start_name (config llm);
            include := files;
            exclude := ["/venv"; "/.venv"; "__pycache__/"; "*.py[cod]"; "*$py.class"];
            python := python_options;
            docker := docker_options |} |} in
  match bento_create_save W bento with
  | None => ret bento
  | Some failure => raise (Propagated failure)
  end.

End WithWorld.
End Package.

(** ** [openllm/models/falcon/__init__.py] *)

Module Falcon.

Inductive exn := MissingDependencyError.

(** Lines 26-27: the body of the [try]. *)
Definition require_torch (is_torch_available : bool) : exn + unit :=
  if negb is_torch_available then inl MissingDependencyError else inr tt.

(** Lines 21-31: the import structure once the module body has run. *)
Definition _import_structure (is_torch_available : bool) : gmap string (list string) :=
  let _import_structure : gmap string (list string) :=
    {[ "configuration_falcon" :=
         ["FalconConfig"; "START_FALCON_COMMAND_DOCSTRING"; "DEFAULT_PROMPT_TEMPLATE"] ]} in
  match require_torch is_torch_available with
  | inl MissingDependencyError => _import_structure
  | inr _ => <["modeling_falcon" := ["Falcon"]]> _import_structure
  end.

End Falcon.

(** ** Predicates used to state the properties *)

Module Obs.
Import Py Package.

(** A computation that never calls [writetext]. *)
Definition silent {A} (m : M A) : Prop :=
  ∀ fs, fs_writes (m fs).2 = fs_writes fs.

(** Adding an adapter map: none before, or one after. *)
Definition adapter_added (before after : option (gmap string string)) : Prop :=
  is_Some before → is_Some after.

(** Adding extra dependencies: none before, or a list after that keeps the
    earlier ones in their order. *)
Definition extras_added (before after : option (list string)) : Prop :=
  match before, after with
  | None, _ => True
  | Some l, Some l' => sublist l l'
  | Some _, None => False
  end.

End Obs.

(** ** Sample inputs, used to run the model on concrete values *)

Module Sample.
Import Py Package.

(** A process without the development flag: [check_bool_env] answers with
    its default. *)
Definition world : World := {|
  check_bool_env := λ _ default, default;
  first_not_none := λ value default, match value with Some v => v | None => default end;
  source_locations := λ package, Some ("/repo/" +:+ package +:+ "/src/" +:+ package);
  path_parent := λ p, p +:+ "/..";
  path_join := λ p q, p +:+ "/" +:+ q;
  isfile := λ _, true;
  build_wheel := λ _ path files, (Built (path +:+ "dist/pkg-0.4.44-py3-none-any.whl"), files);
  release_version := "0.4.44";
  getsyspath := λ p, "/tmp/llm_fs" +:+ p;
  process_environ := λ _ _ _ _ _ _ _ _ _ _,
    {[ "OPENLLM_CONFIG" := "{}"; "BENTOML_HOME" := "/home/user/bentoml" ]};
  orjson_dumps := λ adapter_map, match adapter_map with None => "null" | Some _ => "{}" end;
  metadata_version := λ _, "0.4.44";
  str_tag := λ t, match tag_version t with
                  | Some v => tag_name t +:+ ":" +:+ v
                  | None => tag_name t
                  end;
  str_float := λ _, "0.9";
  service_file_text := "svc = bentoml.Service(name='llm-service')";
  bento_create_save := λ _, None;
|}.

(** The same process with the development flag set. *)
Definition dev_world : World := {|
  check_bool_env := λ _ _, true;
  first_not_none := first_not_none world;
  source_locations := source_locations world;
  path_parent := path_parent world;
  path_join := path_join world;
  isfile := isfile world;
  build_wheel := build_wheel world;
  release_version := release_version world;
  getsyspath := getsyspath world;
  process_environ := process_environ world;
  orjson_dumps := orjson_dumps world;
  metadata_version := metadata_version world;
  str_tag := str_tag world;
  str_float := str_float world;
  service_file_text := service_file_text world;
  bento_create_save := bento_create_save world;
|}.

(** Development flag set, and a build tool that fails. *)
Definition failing_build_world : World := {|
  check_bool_env := λ _ _, true;
  first_not_none := first_not_none world;
  source_locations := source_locations world;
  path_parent := path_parent world;
  path_join := path_join world;
  isfile := isfile world;
  build_wheel := λ _ _ files, (BuildFailed "backend subprocess exited with an error", files);
  release_version := release_version world;
  getsyspath := getsyspath world;
  process_environ := process_environ world;
  orjson_dumps := orjson_dumps world;
  metadata_version := metadata_version world;
  str_tag := str_tag world;
  str_float := str_float world;
  service_file_text := service_file_text world;
  bento_create_save := bento_create_save world;
|}.

Definition falcon_config : LLMConfig := {|
  cfg_requirements := Some ["einops"; "xformers"];
  cfg_timeout := 3600;
  cfg_serialisation := "safetensors";
  cfg_start_name := "falcon";
  cfg_service_name := "generated_falcon_service.py";
|}.

Definition falcon : LLM := {|
  model_id := "tiiuae/falcon-7b";
  tag := {| tag_name := "vllm-tiiuae--falcon-7b"; tag_version := Some "898df13" |};
  config := falcon_config;
  identifying_params := {[ "model_id" := "tiiuae/falcon-7b" ]};
  llm_type := "falcon";
  __llm_backend__ := "vllm";
  trust_remote_code := true;
  _max_model_len := Some 2048%Z;
  _gpu_memory_utilization := Float 8106479329266893 (-53);
  _serialisation := "legacy";
|}.

Definition bento_tag : Tag :=
  {| tag_name := "tiiuae--falcon-7b-service"; tag_version := Some "898df13" |}.

Definition empty_fs : FS := {| fs_files := ∅; fs_writes := [] |}.

(** The Python options of [falcon] without and with optional inputs. *)
Definition plain_options : PythonOptions := {|
  packages := ["scipy"; "bentoml[tracing]>=1.1.11,<1.2"; "openllm[vllm]>=0.4.44";
               "einops"; "xformers"];
  wheels := None;
  lock_packages := false;
|}.

Definition tuned_options : PythonOptions := {|
  packages := ["scipy"; "bentoml[tracing]>=1.1.11,<1.2"; "openllm[vllm]>=0.4.44";
               "openllm[fine-tune]"; "openllm[gptq]"; "einops"; "xformers"];
  wheels := None;
  lock_packages := false;
|}.

End Sample.

(** * Properties *)

Import Py Package Obs.

(** ** The monad *)

Lemma bind_ok {A B} (m : M A) (k : A → M B) fs a fs' :
  m fs = (Ok a, fs') → bind m k fs = k a fs'.
Proof. intros H. unfold bind. by rewrite H. Qed.

Lemma bind_raise {A B} (m : M A) (k : A → M B) fs e fs' :
  m fs = (Raise e, fs') → bind m k fs = (Raise e, fs').
Proof. intros H. unfold bind. by rewrite H. Qed.

Lemma silent_ret {A} (a : A) : silent (ret a).
Proof. done. Qed.

Lemma silent_raise {A} (e : exn) : silent (@raise A e).
Proof. done. Qed.

Lemma silent_lift {A} (r : result A) : silent (lift r).
Proof. done. Qed.

Lemma silent_bind {A B} (m : M A) (k : A → M B) :
  silent m → (∀ a, silent (k a)) → silent (bind m k).
Proof.
  intros Hm Hk fs. unfold bind.
  specialize (Hm fs). destruct (m fs) as [[a|e] fs1]; simpl in *.
  - by rewrite Hk.
  - done.
Qed.

Lemma silent_mapM {A B} (f : A → M B) (l : list A) :
  (∀ a, silent (f a)) → silent (mapM f l).
Proof.
  intros Hf. induction l as [|x l IH]; simpl.
  - apply silent_ret.
  - apply silent_bind; [apply Hf|]. intros y.
    apply silent_bind; [apply IH|]. intros ys. apply silent_ret.
Qed.

Lemma written_app fs fs' l :
  fs_writes fs' = fs_writes fs ++ l → written fs fs' = l.
Proof. unfold written. intros ->. by rewrite drop_app_length. Qed.

(** ** [build_editable] *)

Section BuildEditable.
Variable W : World.

Lemma silent_run_build project_dir path : silent (run_build W project_dir path).
Proof. intros fs. unfold run_build. by destruct (build_wheel _ _ _ _) as [[?|?] ?]. Qed.

Lemma silent_build_editable path package : silent (build_editable W path package).
Proof.
  unfold build_editable.
  destruct (negb _); [apply silent_ret|].
  destruct (source_locations W package) as [loc|]; [|apply silent_raise].
  destruct (truthy loc); [|apply silent_raise].
  destruct (isfile W _); [|apply silent_raise].
  apply silent_bind; [apply silent_run_build|]. intros w. apply silent_ret.
Qed.

(** With the development flag off the builder is a no-op. *)
Lemma build_editable_disabled path package fs :
  check_bool_env W OPENLLM_DEV_BUILD false = false →
  build_editable W path package fs = (Ok None, fs).
Proof. intros Hflag. unfold build_editable. by rewrite Hflag. Qed.

End BuildEditable.

(** C2: with the development-mode flag not set, [build_editable] returns
    [None] for every path and package, and the staging filesystem (its files
    and the record of its writes) is exactly what it was before the call. *)
Theorem build_editable_noop_without_dev_flag (W : World) (path package : string) (fs : FS) :
  check_bool_env W OPENLLM_DEV_BUILD false = false →
  (build_editable W path package fs).1 = Ok None
  ∧ (build_editable W path package fs).2 = fs
  ∧ fs_files (build_editable W path package fs).2 = fs_files fs
  ∧ written fs (build_editable W path package fs).2 = [].
Proof.
  intros Hflag. rewrite (build_editable_disabled W path package fs Hflag). simpl.
  repeat split. apply written_app. by rewrite app_nil_r.
Qed.

Lemma build_editable_noop_without_dev_flag_witness :
  check_bool_env Sample.world OPENLLM_DEV_BUILD false = false
  ∧ (build_editable Sample.world "/tmp/llm_fs/" "openllm" Sample.empty_fs).1 = Ok None
  ∧ (build_editable Sample.world "/tmp/llm_fs/" "openllm" Sample.empty_fs).2 = Sample.empty_fs.
Proof.
  split; [reflexivity|].
  destruct (build_editable_noop_without_dev_flag Sample.world "/tmp/llm_fs/" "openllm"
              Sample.empty_fs eq_refl) as (H1 & H2 & _).
  exact (conj H1 H2).
Defined.

(** C6, as the code has it: with the development-mode flag set,
    [build_editable] raises a [RuntimeError] of its own, at once and leaving
    the staging filesystem untouched, in exactly two cases: the package's
    source location is not resolved ([None] or empty), or no
    [pyproject.toml] is found two directories above it.  In every other case
    it hands back the outcome of the external wheel build unchanged: the
    wheel path when the build succeeds, the build tool's failure when it does
    not. *)
Theorem build_editable_dev_outcomes (W : World) (path package : string) (fs : FS) :
  check_bool_env W OPENLLM_DEV_BUILD false = true →
  (truthy_opt (source_locations W package) = false →
     build_editable W path package fs
     = (Raise (RuntimeError "Could not find the source location of OpenLLM."), fs))
  ∧ (∀ loc, source_locations W package = Some loc → truthy loc = true →
       isfile W (path_join W (path_parent W (path_parent W loc)) "pyproject.toml") = false →
       build_editable W path package fs
       = (Raise (RuntimeError "Please install OpenLLM from PyPI or built it from Git source."),
          fs))
  ∧ (∀ loc outcome files,
       source_locations W package = Some loc → truthy loc = true →
       isfile W (path_join W (path_parent W (path_parent W loc)) "pyproject.toml") = true →
       build_wheel W
         (path_parent W (path_join W (path_parent W (path_parent W loc)) "pyproject.toml"))
         path (fs_files fs) = (outcome, files) →
       build_editable W path package fs
       = (match outcome with
          | Built wheel => Ok (Some wheel)
          | BuildFailed why => Raise (Propagated why)
          end,
          {| fs_files := files; fs_writes := fs_writes fs |}))
  ∧ ((∃ msg, (build_editable W path package fs).1 = Raise (RuntimeError msg))
     ↔ (truthy_opt (source_locations W package) = false
        ∨ ∃ loc, source_locations W package = Some loc ∧ truthy loc = true
                 ∧ isfile W (path_join W (path_parent W (path_parent W loc)) "pyproject.toml")
                   = false)).
Proof.
  intros Hflag. unfold build_editable. rewrite Hflag.
  change (negb true) with false. cbv iota.
  destruct (source_locations W package) as [loc|] eqn:Hloc; simpl truthy_opt.
  - destruct (truthy loc) eqn:Htruthy.
    + destruct (isfile W _) eqn:Hfile.
      * repeat split.
        -- discriminate.
        -- intros loc' [= <-] _ Hno. congruence.
        -- intros loc' outcome files [= <-] _ _ Hbuild.
           unfold bind, run_build. cbv beta. rewrite Hbuild. by destruct outcome.
        -- intros [msg Hmsg]. exfalso. revert Hmsg.
           unfold bind, run_build. cbv beta.
           destruct (build_wheel _ _ _ _) as [[wheel|why] files]; discriminate.
        -- intros [Hno|(loc' & [= <-] & _ & Hno)]; [discriminate | congruence].
      * repeat split.
        -- discriminate.
        -- intros loc' outcome files [= <-] _ Hyes. congruence.
        -- intros _. right. by exists loc.
        -- intros _. by eexists.
    + repeat split.
      * intros loc' [= <-]. congruence.
      * intros loc' outcome files [= <-]. congruence.
      * intros _. by left.
      * intros _. by eexists.
  - repeat split.
    + discriminate.
    + discriminate.
    + intros _. by left.
    + intros _. by eexists.
Qed.

Lemma build_editable_dev_outcomes_witness :
  check_bool_env Sample.dev_world OPENLLM_DEV_BUILD false = true
  ∧ build_editable Sample.dev_world "/tmp/llm_fs/" "openllm" Sample.empty_fs
    = (Ok (Some "/tmp/llm_fs/dist/pkg-0.4.44-py3-none-any.whl"), Sample.empty_fs).
Proof.
  split; [reflexivity|].
  destruct (build_editable_dev_outcomes Sample.dev_world "/tmp/llm_fs/" "openllm"
              Sample.empty_fs eq_refl) as (_ & _ & Hbuild & _).
  exact (Hbuild _ _ _ eq_refl eq_refl eq_refl eq_refl).
Defined.

(** C6 as stated fails where the build tool itself fails: the flag is set,
    the source location resolves and the descriptor exists, yet
    [build_editable] neither returns a wheel path nor raises one of its two
    errors. *)
Lemma build_editable_build_failure_propagates :
  check_bool_env Sample.failing_build_world OPENLLM_DEV_BUILD false = true
  ∧ source_locations Sample.failing_build_world "openllm"
    = Some "/repo/openllm/src/openllm"
  ∧ isfile Sample.failing_build_world
      (path_join Sample.failing_build_world
         (path_parent Sample.failing_build_world
            (path_parent Sample.failing_build_world "/repo/openllm/src/openllm"))
         "pyproject.toml") = true
  ∧ (build_editable Sample.failing_build_world "/tmp/llm_fs/" "openllm" Sample.empty_fs).1
    = Raise (Propagated "backend subprocess exited with an error")
  ∧ ¬ (∃ wheel, (build_editable Sample.failing_build_world "/tmp/llm_fs/" "openllm"
                   Sample.empty_fs).1 = Ok (Some wheel)).
Proof.
  repeat split; try reflexivity.
  intros [wheel Hwheel]. vm_compute in Hwheel. discriminate.
Qed.

(** ** [construct_python_options] *)

Section PythonOptions.
Variable W : World.

Lemma silent_construct_python_options llm extra_dependencies adapter_map :
  silent (construct_python_options W llm extra_dependencies adapter_map).
Proof.
  unfold construct_python_options. apply silent_bind.
  - apply silent_mapM. intros p. apply silent_build_editable.
  - intros bw. apply silent_ret.
Qed.

(** What a returning call returns, in terms of the three builds. *)
Lemma construct_python_options_ok llm extra_dependencies adapter_map fs options fs' :
  construct_python_options W llm extra_dependencies adapter_map fs = (Ok options, fs') →
  ∃ built,
    built_wheels W fs = (Ok built, fs')
    ∧ options = {| packages := python_packages W llm extra_dependencies adapter_map;
                   wheels := wheel_paths W built;
                   lock_packages := false |}.
Proof.
  unfold construct_python_options, bind.
  destruct (built_wheels W fs) as [[built|e] fs1]; [|discriminate].
  intros [= <- <-]. by exists built.
Qed.

Lemma built_wheels_disabled fs :
  check_bool_env W OPENLLM_DEV_BUILD false = false →
  built_wheels W fs = (Ok [None; None; None], fs).
Proof.
  intros Hflag. unfold built_wheels. simpl. unfold bind.
  by rewrite !build_editable_disabled.
Qed.

Lemma construct_python_options_disabled llm extra_dependencies adapter_map fs :
  check_bool_env W OPENLLM_DEV_BUILD false = false →
  construct_python_options W llm extra_dependencies adapter_map fs
  = (Ok {| packages := python_packages W llm extra_dependencies adapter_map;
           wheels := None;
           lock_packages := false |}, fs).
Proof.
  intros Hflag. unfold construct_python_options.
  erewrite bind_ok; [|by apply built_wheels_disabled]. reflexivity.
Qed.

(** The requirement list is the three core requirements, then what the
    optional inputs add, then the model's own requirements. *)
Lemma python_packages_eq llm extra_dependencies adapter_map :
  python_packages W llm extra_dependencies adapter_map
  = ["scipy"; "bentoml[tracing]>=1.1.11,<1.2"; "openllm[vllm]>=" +:+ release_version W]
    ++ match adapter_map with Some _ => ["openllm[fine-tune]"] | None => [] end
    ++ match extra_dependencies with
       | Some deps => (λ k, "openllm[" +:+ k +:+ "]") <$> deps
       | None => []
       end
    ++ match cfg_requirements (config llm) with Some reqs => reqs | None => [] end.
Proof.
  unfold python_packages.
  destruct adapter_map, extra_dependencies, (cfg_requirements (config llm));
    rewrite ?app_nil_r, <- ?app_assoc; reflexivity.
Qed.

End PythonOptions.

Lemma extras_added_packages before after :
  extras_added before after →
  sublist
    (match before with Some deps => (λ k, "openllm[" +:+ k +:+ "]") <$> deps | None => [] end)
    (match after with Some deps => (λ k, "openllm[" +:+ k +:+ "]") <$> deps | None => [] end).
Proof.
  destruct before as [l|], after as [l'|]; simpl; try done.
  - apply fmap_sublist.
  - intros _. apply sublist_nil_l.
Qed.

Lemma adapter_added_packages before after :
  adapter_added before after →
  sublist
    (match before with Some _ => ["openllm[fine-tune]"] | None => [] end)
    (match after with Some _ => ["openllm[fine-tune]"] | None => [] end).
Proof.
  unfold adapter_added. destruct before as [m|], after as [m'|]; try done.
  - intros H. by destruct (H (mk_is_Some _ _ eq_refl)).
  - intros _. apply sublist_nil_l.
Qed.

(** C3: whenever [construct_python_options] returns, its package list holds
    the three core requirements ([scipy], the pinned [bentoml[tracing]], and
    [openllm[vllm]] at the release version), whatever the configuration and
    the optional inputs; and adding an adapter map or extra dependencies
    only adds packages: the earlier list is a sublist of the later one. *)
Theorem python_packages_core_and_monotone
    (W : World) (llm : LLM)
    (extra extra' : option (list string)) (adapter adapter' : option (gmap string string))
    (fs fs1 fs' fs1' : FS) (options options' : PythonOptions) :
  construct_python_options W llm extra adapter fs = (Ok options, fs1) →
  construct_python_options W llm extra' adapter' fs' = (Ok options', fs1') →
  ("scipy" ∈ packages options
   ∧ "bentoml[tracing]>=1.1.11,<1.2" ∈ packages options
   ∧ "openllm[vllm]>=" +:+ release_version W ∈ packages options)
  ∧ (adapter_added adapter adapter' → extras_added extra extra' →
     sublist (packages options) (packages options')
     ∧ ∀ p, p ∈ packages options → p ∈ packages options').
Proof.
  intros (built & _ & ->)%construct_python_options_ok
         (built' & _ & ->)%construct_python_options_ok.
  simpl. rewrite !python_packages_eq. split.
  - repeat split; set_solver.
  - intros Hadapter Hextra.
    assert (Hsub : sublist
      (["scipy"; "bentoml[tracing]>=1.1.11,<1.2"; "openllm[vllm]>=" +:+ release_version W]
       ++ match adapter with Some _ => ["openllm[fine-tune]"] | None => [] end
       ++ match extra with
          | Some deps => (λ k, "openllm[" +:+ k +:+ "]") <$> deps
          | None => []
          end
       ++ match cfg_requirements (config llm) with Some reqs => reqs | None => [] end)
      (["scipy"; "bentoml[tracing]>=1.1.11,<1.2"; "openllm[vllm]>=" +:+ release_version W]
       ++ match adapter' with Some _ => ["openllm[fine-tune]"] | None => [] end
       ++ match extra' with
          | Some deps => (λ k, "openllm[" +:+ k +:+ "]") <$> deps
          | None => []
          end
       ++ match cfg_requirements (config llm) with Some reqs => reqs | None => [] end)).
    { apply sublist_app; [done|].
      apply sublist_app; [by apply adapter_added_packages|].
      apply sublist_app; [by apply extras_added_packages|done]. }
    split; [exact Hsub|].
    intros p Hp. by eapply sublist_subseteq.
Qed.

Lemma python_packages_core_and_monotone_witness :
  construct_python_options Sample.world Sample.falcon None None Sample.empty_fs
  = (Ok Sample.plain_options, Sample.empty_fs)
  ∧ construct_python_options Sample.world Sample.falcon (Some ["gptq"]) (Some ∅)
      Sample.empty_fs
    = (Ok Sample.tuned_options, Sample.empty_fs)
  ∧ "scipy" ∈ packages Sample.plain_options
  ∧ sublist (packages Sample.plain_options) (packages Sample.tuned_options).
Proof.
  assert (H1 : construct_python_options Sample.world Sample.falcon None None Sample.empty_fs
               = (Ok Sample.plain_options, Sample.empty_fs)) by reflexivity.
  assert (H2 : construct_python_options Sample.world Sample.falcon (Some ["gptq"]) (Some ∅)
                 Sample.empty_fs
               = (Ok Sample.tuned_options, Sample.empty_fs)) by reflexivity.
  destruct (python_packages_core_and_monotone _ _ _ _ _ _ _ _ _ _ _ _ H1 H2)
    as ((Hscipy & _) & Hmono).
  destruct Hmono as (Hsub & _).
  - intros [m Hm]. discriminate Hm.
  - exact I.
  - exact (conj H1 (conj H2 (conj Hscipy Hsub))).
Defined.

(** C10: with the development-mode flag unset, [construct_python_options]
    returns options whose [wheels] is [None] (and builds nothing).  In
    general the wheels of a returning call are decided by the three editable
    builds together: a wheel list is present only when each of
    [openllm_core], [openllm_client] and [openllm] came back with a
    (non-empty) wheel path, and it then lists the staging path of each wheel
    file; as soon as one build came back with [None] there is no wheel list
    at all. *)
Theorem python_options_wheels_all_or_none
    (W : World) (llm : LLM) (extra : option (list string))
    (adapter : option (gmap string string)) (fs : FS) :
  (check_bool_env W OPENLLM_DEV_BUILD false = false →
     ∃ options,
       construct_python_options W llm extra adapter fs = (Ok options, fs)
       ∧ wheels options = None)
  ∧ (∀ options fs',
       construct_python_options W llm extra adapter fs = (Ok options, fs') →
       ∃ core client openllm,
         built_wheels W fs = (Ok [core; client; openllm], fs')
         ∧ wheels options = wheel_paths W [core; client; openllm]
         ∧ (∀ ws, wheels options = Some ws →
              ∃ w1 w2 w3,
                core = Some w1 ∧ client = Some w2 ∧ openllm = Some w3
                ∧ w1 ≠ "" ∧ w2 ≠ "" ∧ w3 ≠ ""
                ∧ ws = [getsyspath W ("/" +:+ last_item (split "/" w1));
                        getsyspath W ("/" +:+ last_item (split "/" w2));
                        getsyspath W ("/" +:+ last_item (split "/" w3))])
         ∧ (core = None ∨ client = None ∨ openllm = None → wheels options = None)).
Proof.
  split.
  - intros Hflag. eexists. split; [by apply construct_python_options_disabled|done].
  - intros options fs' (built & Hbuilt & ->)%construct_python_options_ok.
    assert (∃ core client openllm, built = [core; client; openllm])
      as (core & client & openllm & ->).
    { revert Hbuilt. unfold built_wheels. simpl. unfold bind, ret.
      destruct (build_editable W _ "openllm_core" fs) as [[core|?] fs1]; [|discriminate].
      destruct (build_editable W _ "openllm_client" fs1) as [[client|?] fs2]; [|discriminate].
      destruct (build_editable W _ "openllm" fs2) as [[openllm|?] fs3]; [|discriminate].
      intros [= <- ?]. by eexists _, _, _. }
    exists core, client, openllm. simpl. repeat split; [done| |].
    + intros ws. unfold wheel_paths, all_truthy. simpl.
      destruct core as [[|c1 w1]|], client as [[|c2 w2]|], openllm as [[|c3 w3]|];
        simpl; try discriminate.
      intros [= <-]. by eexists _, _, _.
    + unfold wheel_paths, all_truthy. simpl.
      intros [-> | [-> | ->]]; simpl; rewrite ?andb_false_r; done.
Qed.

Lemma python_options_wheels_all_or_none_witness :
  check_bool_env Sample.world OPENLLM_DEV_BUILD false = false
  ∧ (∃ options,
       construct_python_options Sample.world Sample.falcon None None Sample.empty_fs
       = (Ok options, Sample.empty_fs)
       ∧ wheels options = None).
Proof.
  split; [reflexivity|].
  destruct (python_options_wheels_all_or_none Sample.world Sample.falcon None None
              Sample.empty_fs) as [Hoff _].
  exact (Hoff eq_refl).
Defined.

(** ** [construct_docker_options] *)

Lemma construct_docker_options_ok W llm quantize adapter_map template serialisation fs
    options fs' :
  construct_docker_options W llm quantize adapter_map template serialisation fs
  = (Ok options, fs') →
  fs' = fs
  ∧ ∃ openllm_config,
      process_environ W (config llm) (cfg_timeout (config llm)) (Float 1 0) None true
        (model_id llm) None (_serialisation llm) llm false !! "OPENLLM_CONFIG"
      = Some openllm_config
      ∧ env options
        = <["NVIDIA_DRIVER_CAPABILITIES" := "compute,utility"]>
            (delete "BENTOML_HOME"
               (<["OPENLLM_CONFIG" := "'" +:+ openllm_config +:+ "'"]>
                  (process_environ W (config llm) (cfg_timeout (config llm)) (Float 1 0)
                     None true (model_id llm) None (_serialisation llm) llm false))).
Proof.
  unfold construct_docker_options, bind, lift, getitem.
  destruct (process_environ _ _ _ _ _ _ _ _ _ _ _ !! "OPENLLM_CONFIG") as [c|] eqn:Hc;
    [|discriminate].
  intros [= <- <-]. split; [done|]. by exists c.
Qed.

Lemma silent_construct_docker_options W llm quantize adapter_map template serialisation :
  silent (construct_docker_options W llm quantize adapter_map template serialisation).
Proof.
  intros fs. unfold construct_docker_options, bind, lift, getitem.
  by destruct (process_environ _ _ _ _ _ _ _ _ _ _ _ !! "OPENLLM_CONFIG").
Qed.

(** C4: whatever the inputs, the environment of the [DockerOptions] that
    [construct_docker_options] returns has no [BENTOML_HOME] entry and maps
    [NVIDIA_DRIVER_CAPABILITIES] to ['compute,utility'].  The call returns
    whenever the processed environment carries [OPENLLM_CONFIG], and it
    leaves the staging filesystem alone. *)
Theorem docker_env_omits_home_and_fixes_driver_capabilities
    (W : World) (llm : LLM) (quantize : option string)
    (adapter_map : option (gmap string string)) (template : option string)
    (serialisation : string) (fs : FS) :
  (is_Some (process_environ W (config llm) (cfg_timeout (config llm)) (Float 1 0) None true
              (model_id llm) None (_serialisation llm) llm false !! "OPENLLM_CONFIG") →
   ∃ options,
     construct_docker_options W llm quantize adapter_map template serialisation fs
     = (Ok options, fs))
  ∧ (∀ options fs',
       construct_docker_options W llm quantize adapter_map template serialisation fs
       = (Ok options, fs') →
       env options !! "BENTOML_HOME" = None
       ∧ env options !! "NVIDIA_DRIVER_CAPABILITIES" = Some "compute,utility").
Proof.
  split.
  - intros [c Hc]. unfold construct_docker_options, bind, lift, getitem.
    rewrite Hc. by eexists.
  - intros options fs' (_ & c & _ & ->)%construct_docker_options_ok. split.
    + rewrite lookup_insert_ne by discriminate. apply lookup_delete_eq.
    + apply lookup_insert_eq.
Qed.

Lemma docker_env_omits_home_and_fixes_driver_capabilities_witness :
  process_environ Sample.world (config Sample.falcon) 3600 (Float 1 0) None true
    "tiiuae/falcon-7b" None "legacy" Sample.falcon false !! "BENTOML_HOME"
  = Some "/home/user/bentoml"
  ∧ ∃ options,
      construct_docker_options Sample.world Sample.falcon None None None "safetensors"
        Sample.empty_fs = (Ok options, Sample.empty_fs)
      ∧ env options !! "BENTOML_HOME" = None
      ∧ env options !! "NVIDIA_DRIVER_CAPABILITIES" = Some "compute,utility".
Proof.
  split; [reflexivity|].
  destruct (docker_env_omits_home_and_fixes_driver_capabilities Sample.world Sample.falcon
              None None None "safetensors" Sample.empty_fs) as [Hret Henv].
  destruct Hret as [options Hoptions].
  - exists "{}". reflexivity.
  - exists options. split; [exact Hoptions|]. exact (Henv options _ Hoptions).
Defined.

(** ** The Falcon import structure *)

(** C8: the import structure always lists the three configuration names
    under [configuration_falcon]; it lists [Falcon] under [modeling_falcon]
    exactly when torch is available, and has no [modeling_falcon] entry
    otherwise.  Nothing else is listed, and nothing but the availability
    check decides. *)
Theorem falcon_import_structure (is_torch_available : bool) :
  Falcon._import_structure is_torch_available !! "configuration_falcon"
  = Some ["FalconConfig"; "START_FALCON_COMMAND_DOCSTRING"; "DEFAULT_PROMPT_TEMPLATE"]
  ∧ (Falcon._import_structure is_torch_available !! "modeling_falcon" = Some ["Falcon"]
     ↔ is_torch_available = true)
  ∧ (Falcon._import_structure is_torch_available !! "modeling_falcon" = None
     ↔ is_torch_available = false)
  ∧ (∀ module, is_Some (Falcon._import_structure is_torch_available !! module) →
       module = "configuration_falcon"
       ∨ (module = "modeling_falcon" ∧ is_torch_available = true)).
Proof.
  unfold Falcon._import_structure, Falcon.require_torch.
  destruct is_torch_available; simpl.
  - repeat split; try done.
    intros module. destruct (decide (module = "modeling_falcon")) as [->|Hne1]; [by right|].
    rewrite lookup_insert_ne by done.
    destruct (decide (module = "configuration_falcon")) as [->|Hne2]; [by left|].
    rewrite lookup_singleton_ne by done. by intros [? ?].
  - repeat split; try done.
    intros module.
    destruct (decide (module = "configuration_falcon")) as [->|Hne2]; [by left|].
    rewrite lookup_singleton_ne by done. by intros [? ?].
Qed.

(** ** Strings and lines *)

Lemma append_nil_r (s : string) : s +:+ "" = s.
Proof.
  induction s as [|c s IH]; [done|].
  change (String c (s +:+ "") = String c s). by rewrite IH.
Qed.

Lemma single_line_app (a b : string) :
  single_line (a +:+ b) = single_line a && single_line b.
Proof.
  induction a as [|c a IH]; [done|].
  change (negb (Ascii.eqb c LF) && single_line (a +:+ b)
          = negb (Ascii.eqb c LF) && single_line a && single_line b).
  rewrite IH. apply andb_assoc.
Qed.

Lemma single_line_pretty_N_char (d : N) : Ascii.eqb (pretty_N_char d) LF = false.
Proof. unfold pretty_N_char. by repeat case_match. Qed.

Lemma single_line_pretty_N_go (x : N) (s : string) :
  single_line s = true → single_line (pretty_N_go x s) = true.
Proof.
  revert s. induction (N.lt_wf_0 x) as [x _ IH]. intros s Hs.
  destruct (decide (x = 0)%N) as [->|Hpos].
  - by rewrite pretty_N_go_0.
  - rewrite pretty_N_go_step by lia. apply IH.
    + apply N.div_lt; lia.
    + simpl. by rewrite single_line_pretty_N_char.
Qed.

Lemma single_line_pretty_Z (n : Z) : single_line (pretty n) = true.
Proof.
  destruct n as [|p|p]; [done| |].
  - unfold pretty, pretty_Z, pretty, pretty_positive, pretty, pretty_N.
    case_decide; [done|]. by apply single_line_pretty_N_go.
  - unfold pretty, pretty_Z. rewrite single_line_app.
    unfold pretty, pretty_positive, pretty, pretty_N.
    case_decide; [done|]. by rewrite single_line_pretty_N_go.
Qed.

Lemma single_line_str_opt_int (o : option Z) : single_line (str_opt_int o) = true.
Proof. destruct o; [apply single_line_pretty_Z|done]. Qed.

Lemma single_line_str_bool (b : bool) : single_line (str_bool b) = true.
Proof. by destruct b. Qed.

Lemma lines_single (s : string) : single_line s = true → lines s = [s].
Proof.
  unfold lines. induction s as [|c s IH]; [done|]. simpl.
  destruct (Ascii.eqb c LF); [done|]. simpl. intros Hs. by rewrite IH.
Qed.

Lemma lines_app_nl (a b : string) :
  single_line a = true → lines (a +:+ nl +:+ b) = a :: lines b.
Proof.
  unfold lines. induction a as [|c a IH].
  - intros _. change (split LF (String LF b) = "" :: split LF b).
    reflexivity.
  - change (String c a +:+ nl +:+ b) with (String c (a +:+ nl +:+ b)). simpl.
    destruct (Ascii.eqb c LF); [done|]. simpl. intros Ha. by rewrite IH.
Qed.

(** ** [create_bento] *)

Section CreateBento.
Variable W : World.

(** The generated text, written out. *)
Lemma service_vars_script_eq llm adapter_map :
  service_vars_script W llm adapter_map
  = Ok ("# fmt: off" +:+ nl +:+ "# GENERATED BY 'openllm build " +:+ model_id llm
        +:+ "'. DO NOT EDIT" +:+ nl
        +:+ "import orjson;model_id,model_tag,adapter_map,serialization,trust_remote_code,max_model_len,gpu_memory_utilization='"
        +:+ model_id llm +:+ "','" +:+ str_tag W (tag llm) +:+ "',orjson.loads(" +:+ dq3
        +:+ orjson_dumps W adapter_map +:+ dq3 +:+ "),'" +:+ cfg_serialisation (config llm)
        +:+ "'," +:+ str_bool (trust_remote_code llm)
        +:+ "," +:+ str_opt_int (_max_model_len llm)
        +:+ "," +:+ str_float W (_gpu_memory_utilization llm)).
Proof.
  rewrite <- (append_nil_r (str_float W (_gpu_memory_utilization llm))).
  reflexivity.
Qed.

(** Every invocation hands exactly two texts to [writetext]: the generated
    script, then the service source; nothing later writes through
    [writetext]. *)
Lemma create_bento_writes bento_tag llm quantize template adapter_map extra serialisation
    fs script :
  service_vars_script W llm adapter_map = Ok script →
  written fs
    (create_bento W bento_tag llm quantize template adapter_map extra serialisation fs).2
  = [("_service_vars.py", script); (cfg_service_name (config llm), service_file_text W)].
Proof.
  intros Hscript. apply written_app.
  unfold create_bento. rewrite Hscript.
  unfold bind at 1. unfold lift. unfold bind at 1. unfold writetext at 1.
  unfold bind at 1. unfold writetext at 1.
  rewrite silent_bind.
  - simpl. by rewrite <- app_assoc.
  - done.
  - intros files. apply silent_bind; [apply silent_construct_python_options|].
    intros python_options. apply silent_bind; [apply silent_construct_docker_options|].
    intros docker_options.
    destruct (bento_create_save W _); [apply silent_raise|apply silent_ret].
Qed.

(** What a returning call returns. *)
Lemma create_bento_ok bento_tag llm quantize template adapter_map extra serialisation
    fs bento fs' :
  create_bento W bento_tag llm quantize template adapter_map extra serialisation fs
  = (Ok bento, fs') →
  ∃ fs2 python_options docker_options,
    construct_python_options W llm extra adapter_map fs2 = (Ok python_options, fs')
    ∧ construct_docker_options W llm quantize adapter_map template
        (first_not_none W serialisation (cfg_serialisation (config llm))) fs'
      = (Ok docker_options, fs')
    ∧ labels (build_config bento) = bento_labels W llm adapter_map
    ∧ python (build_config bento) = python_options
    ∧ docker (build_config bento) = docker_options
    ∧ bento_create_save W bento = None.
Proof.
  unfold create_bento. rewrite service_vars_script_eq.
  unfold bind at 1. unfold lift. unfold bind at 1. unfold writetext at 1.
  unfold bind at 1. unfold writetext at 1.
  unfold bind at 1. unfold walk_files at 1.
  unfold bind at 1.
  destruct (construct_python_options W llm extra adapter_map _)
    as [[python_options|?] fs3] eqn:Hpython; [|discriminate].
  unfold bind at 1.
  destruct (construct_docker_options W llm quantize adapter_map template _ fs3)
    as [[docker_options|?] fs4] eqn:Hdocker; [|discriminate].
  destruct (construct_docker_options_ok _ _ _ _ _ _ _ _ _ Hdocker) as [-> _].
  destruct (bento_create_save W _) eqn:Hsave; [discriminate|].
  intros [= <- <-]. by eexists _, python_options, docker_options.
Qed.

End CreateBento.

Lemma append_assoc (a b c : string) : (a +:+ b) +:+ c = a +:+ b +:+ c.
Proof.
  induction a as [|x a IH]; [done|].
  change (String x ((a +:+ b) +:+ c) = String x (a +:+ b +:+ c)). by rewrite IH.
Qed.

(** C1: every invocation of [create_bento] writes to [_service_vars.py] a
    text made of the two comment lines of the header and of one statement
    line, rendered from the template [_SERVICE_VARS], which is itself a
    single line.  The statement assigns, in this order, the model id and the
    model tag as quoted literals, the JSON-encoded adapter map inside a
    triple-quoted literal handed to [orjson.loads], the serialization mode as
    a quoted literal, and the trust-remote-code flag, the max model length
    and the gpu memory utilization as bare literals.  When none of the
    embedded texts holds a line break, the file has exactly these three
    lines. *)
Theorem create_bento_writes_service_vars_line
    (W : World) (bento_tag : Tag) (llm : LLM) (quantize template : option string)
    (adapter_map : option (gmap string string)) (extra : option (list string))
    (serialisation : option string) (fs : FS) :
  single_line _SERVICE_VARS = true
  ∧ ∃ statement,
      statement
      = "import orjson;model_id,model_tag,adapter_map,serialization,trust_remote_code,max_model_len,gpu_memory_utilization='"
        +:+ model_id llm +:+ "','" +:+ str_tag W (tag llm) +:+ "',orjson.loads(" +:+ dq3
        +:+ orjson_dumps W adapter_map +:+ dq3 +:+ "),'" +:+ cfg_serialisation (config llm)
        +:+ "'," +:+ str_bool (trust_remote_code llm)
        +:+ "," +:+ str_opt_int (_max_model_len llm)
        +:+ "," +:+ str_float W (_gpu_memory_utilization llm)
      ∧ written fs
          (create_bento W bento_tag llm quantize template adapter_map extra serialisation
             fs).2
        = [("_service_vars.py",
            "# fmt: off" +:+ nl +:+ "# GENERATED BY 'openllm build " +:+ model_id llm
            +:+ "'. DO NOT EDIT" +:+ nl +:+ statement);
           (cfg_service_name (config llm), service_file_text W)]
      ∧ (single_line (model_id llm) = true →
         single_line (str_tag W (tag llm)) = true →
         single_line (orjson_dumps W adapter_map) = true →
         single_line (cfg_serialisation (config llm)) = true →
         single_line (str_float W (_gpu_memory_utilization llm)) = true →
         single_line statement = true
         ∧ lines ("# fmt: off" +:+ nl +:+ "# GENERATED BY 'openllm build " +:+ model_id llm
                  +:+ "'. DO NOT EDIT" +:+ nl +:+ statement)
           = ["# fmt: off";
              "# GENERATED BY 'openllm build " +:+ model_id llm +:+ "'. DO NOT EDIT";
              statement]).
Proof.
  split; [reflexivity|]. eexists. split; [reflexivity|]. split.
  - apply create_bento_writes, service_vars_script_eq.
  - intros Hid Htag Hjson Hser Hgpu.
    assert (Hstatement : single_line
      ("import orjson;model_id,model_tag,adapter_map,serialization,trust_remote_code,max_model_len,gpu_memory_utilization='"
        +:+ model_id llm +:+ "','" +:+ str_tag W (tag llm) +:+ "',orjson.loads(" +:+ dq3
        +:+ orjson_dumps W adapter_map +:+ dq3 +:+ "),'" +:+ cfg_serialisation (config llm)
        +:+ "'," +:+ str_bool (trust_remote_code llm)
        +:+ "," +:+ str_opt_int (_max_model_len llm)
        +:+ "," +:+ str_float W (_gpu_memory_utilization llm)) = true).
    { rewrite !single_line_app, Hid, Htag, Hjson, Hser, Hgpu,
        single_line_str_bool, single_line_str_opt_int. reflexivity. }
    split; [exact Hstatement|].
    rewrite lines_app_nl by reflexivity. f_equal.
    rewrite <- (append_assoc (model_id llm)), <- append_assoc.
    rewrite lines_app_nl.
    + by rewrite (lines_single _ Hstatement), ?append_assoc.
    + rewrite !single_line_app, Hid. reflexivity.
Qed.

Lemma create_bento_writes_service_vars_line_witness :
  single_line (model_id Sample.falcon) = true
  ∧ lines
      ("# fmt: off" +:+ nl +:+ "# GENERATED BY 'openllm build tiiuae/falcon-7b'. DO NOT EDIT"
       +:+ nl
       +:+ "import orjson;model_id,model_tag,adapter_map,serialization,trust_remote_code,max_model_len,gpu_memory_utilization='tiiuae/falcon-7b','vllm-tiiuae--falcon-7b:898df13',orjson.loads("
       +:+ dq3 +:+ "null" +:+ dq3 +:+ "),'safetensors',True,2048,0.9")
    = ["# fmt: off";
       "# GENERATED BY 'openllm build tiiuae/falcon-7b'. DO NOT EDIT";
       "import orjson;model_id,model_tag,adapter_map,serialization,trust_remote_code,max_model_len,gpu_memory_utilization='tiiuae/falcon-7b','vllm-tiiuae--falcon-7b:898df13',orjson.loads("
       +:+ dq3 +:+ "null" +:+ dq3 +:+ "),'safetensors',True,2048,0.9"].
Proof.
  split; [reflexivity|].
  destruct (create_bento_writes_service_vars_line Sample.world Sample.bento_tag Sample.falcon
              None None None None None Sample.empty_fs)
    as (_ & statement & Hstatement & _ & Hlines).
  destruct (Hlines eq_refl eq_refl eq_refl eq_refl eq_refl) as [_ Hthree].
  rewrite Hstatement in Hthree. exact Hthree.
Defined.

(** C5: the generated script is a function of the model identity (model id,
    tag, configured serialization, trust flag, max model length, gpu memory
    utilization) and of the adapter map alone.  Two invocations that agree
    on these write the same text to [_service_vars.py], whatever else
    differs between them: bundle tag, quantization, Dockerfile template,
    extra dependencies, serialisation argument, the rest of the model
    object, the staging filesystem, the development flag and the outcome of
    the builds.  Both run with the same renderers ([orjson.dumps], [str]). *)
Theorem service_vars_script_deterministic
    (W W' : World) (bento_tag bento_tag' : Tag) (llm llm' : LLM)
    (quantize quantize' template template' : option string)
    (adapter_map : option (gmap string string)) (extra extra' : option (list string))
    (serialisation serialisation' : option string) (fs fs' : FS) :
  orjson_dumps W = orjson_dumps W' →
  str_tag W = str_tag W' →
  str_float W = str_float W' →
  model_id llm = model_id llm' →
  tag llm = tag llm' →
  cfg_serialisation (config llm) = cfg_serialisation (config llm') →
  trust_remote_code llm = trust_remote_code llm' →
  _max_model_len llm = _max_model_len llm' →
  _gpu_memory_utilization llm = _gpu_memory_utilization llm' →
  ∃ script,
    service_vars_script W llm adapter_map = Ok script
    ∧ service_vars_script W' llm' adapter_map = Ok script
    ∧ written fs
        (create_bento W bento_tag llm quantize template adapter_map extra serialisation
           fs).2 !! 0%nat
      = Some ("_service_vars.py", script)
    ∧ written fs'
        (create_bento W' bento_tag' llm' quantize' template' adapter_map extra'
           serialisation' fs').2 !! 0%nat
      = Some ("_service_vars.py", script).
Proof.
  intros Hjson Htag Hfloat Hid Htag' Hser Htrust Hlen Hgpu.
  eexists. split; [apply service_vars_script_eq|].
  assert (Hsame : service_vars_script W' llm' adapter_map
                  = service_vars_script W llm adapter_map).
  { rewrite !service_vars_script_eq.
    by rewrite Hjson, Htag, Hfloat, Hid, Htag', Hser, Htrust, Hlen, Hgpu. }
  split; [by rewrite Hsame, service_vars_script_eq|]. split.
  - by erewrite create_bento_writes by apply service_vars_script_eq.
  - erewrite create_bento_writes by (rewrite Hsame; apply service_vars_script_eq).
    reflexivity.
Qed.

Lemma service_vars_script_deterministic_witness :
  written Sample.empty_fs
    (create_bento Sample.world Sample.bento_tag Sample.falcon None None None None None
       Sample.empty_fs).2 !! 0%nat
  = written {| fs_files := {[ "README.md" := "notes" ]}; fs_writes := [("README.md", "notes")] |}
      (create_bento Sample.dev_world
         {| tag_name := "another-service"; tag_version := None |} Sample.falcon
         (Some "int8") (Some "Dockerfile.j2") None (Some ["gptq"]) (Some "legacy")
         {| fs_files := {[ "README.md" := "notes" ]};
            fs_writes := [("README.md", "notes")] |}).2 !! 0%nat.
Proof.
  destruct (service_vars_script_deterministic Sample.world Sample.dev_world
              Sample.bento_tag {| tag_name := "another-service"; tag_version := None |}
              Sample.falcon Sample.falcon None (Some "int8") None (Some "Dockerfile.j2")
              None None (Some ["gptq"]) None (Some "legacy") Sample.empty_fs
              {| fs_files := {[ "README.md" := "notes" ]};
                 fs_writes := [("README.md", "notes")] |}
              eq_refl eq_refl eq_refl eq_refl eq_refl eq_refl eq_refl eq_refl eq_refl)
    as (script & _ & _ & H1 & H2).
  exact (eq_trans H1 (eq_sym H2)).
Defined.

(** C9: the serialization literal of the generated script is
    [llm.config['serialisation']].  The [serialisation] argument plays no
    part in it: any two values of the argument give the same writes.  The
    value resolved by [first_not_none] goes to [construct_docker_options],
    whose result becomes the bento's docker options. *)
Theorem service_vars_serialization_is_configured
    (W : World) (bento_tag : Tag) (llm : LLM) (quantize template : option string)
    (adapter_map : option (gmap string string)) (extra : option (list string))
    (serialisation serialisation' : option string) (fs : FS) :
  written fs
    (create_bento W bento_tag llm quantize template adapter_map extra serialisation fs).2
    !! 0%nat
  = Some ("_service_vars.py",
          "# fmt: off" +:+ nl +:+ "# GENERATED BY 'openllm build " +:+ model_id llm
          +:+ "'. DO NOT EDIT" +:+ nl
          +:+ "import orjson;model_id,model_tag,adapter_map,serialization,trust_remote_code,max_model_len,gpu_memory_utilization='"
          +:+ model_id llm +:+ "','" +:+ str_tag W (tag llm) +:+ "',orjson.loads(" +:+ dq3
          +:+ orjson_dumps W adapter_map +:+ dq3 +:+ "),'"
          +:+ cfg_serialisation (config llm)
          +:+ "'," +:+ str_bool (trust_remote_code llm)
          +:+ "," +:+ str_opt_int (_max_model_len llm)
          +:+ "," +:+ str_float W (_gpu_memory_utilization llm))
  ∧ written fs
      (create_bento W bento_tag llm quantize template adapter_map extra serialisation fs).2
    = written fs
        (create_bento W bento_tag llm quantize template adapter_map extra serialisation'
           fs).2
  ∧ (∀ bento fs',
       create_bento W bento_tag llm quantize template adapter_map extra serialisation fs
       = (Ok bento, fs') →
       construct_docker_options W llm quantize adapter_map template
         (first_not_none W serialisation (cfg_serialisation (config llm))) fs'
       = (Ok (docker (build_config bento)), fs')).
Proof.
  split; [|split].
  - by erewrite create_bento_writes by apply service_vars_script_eq.
  - by erewrite !create_bento_writes by apply service_vars_script_eq.
  - intros bento fs' (fs2 & python_options & docker_options & _ & Hdocker & _ & _ & -> & _)
      %create_bento_ok.
    exact Hdocker.
Qed.

Lemma service_vars_serialization_is_configured_witness :
  ∃ bento fs',
    create_bento Sample.world Sample.bento_tag Sample.falcon None None None None
      (Some "legacy") Sample.empty_fs = (Ok bento, fs')
    ∧ construct_docker_options Sample.world Sample.falcon None None None "legacy" fs'
      = (Ok (docker (build_config bento)), fs').
Proof.
  destruct (service_vars_serialization_is_configured Sample.world Sample.bento_tag
              Sample.falcon None None None None (Some "legacy") None Sample.empty_fs)
    as (_ & _ & Hdocker).
  eexists _, _. split; [vm_compute; reflexivity|]. apply Hdocker. vm_compute; reflexivity.
Defined.

(** ** Labels *)

Section Labels.
Variable W : World.

Lemma version_labels_eq :
  version_labels W
  = <["openllm_version" := metadata_version W "openllm"]>
      (<["openllm_core_version" := metadata_version W "openllm-core"]>
         (<["openllm_client_version" := metadata_version W "openllm-client"]> ∅)).
Proof. reflexivity. Qed.

(** An adapter-map entry wins over any other label of the same key. *)
Lemma bento_labels_adapter llm (m : gmap string string) k a :
  m !! k = Some a → bento_labels W llm (Some m) !! k = Some a.
Proof.
  intros Hk. unfold bento_labels. case_decide as Hempty.
  - subst m. by rewrite lookup_empty in Hk.
  - by apply lookup_union_Some_l.
Qed.

(** Without such an entry, the labels set by [create_bento] win over the
    identifying parameters. *)
Lemma bento_labels_own llm adapter_map k :
  adapter_map ≫= (.!! k) = None →
  bento_labels W llm adapter_map !! k
  = ((<["_type" := llm_type llm]>
       (<["_framework" := __llm_backend__ llm]>
         (<["start_name" := cfg_start_name (config llm)]>
           (<["base_name_or_path" := model_id llm]>
             (<["bundler" := "openllm.bundle"]> (version_labels W))))))
     ∪ identifying_params llm) !! k.
Proof.
  intros Hk. unfold bento_labels. destruct adapter_map as [m|]; [|done].
  case_decide; [done|]. simpl in Hk. by rewrite lookup_union_r.
Qed.

End Labels.

(** C7, as the code has it: the labels of the artifact are a string-to-string
    map that has an entry under each of [_type], [_framework], [start_name],
    [base_name_or_path], [bundler], [openllm_version], [openllm_core_version]
    and [openllm_client_version].  The entry is the model type, the backend,
    the start name, the model id, ['openllm.bundle'] and the installed
    version of the package, in this order, unless the adapter map has an
    entry under the same key: the adapter map is merged last and its entry
    is the label. *)
Theorem bento_labels_entries
    (W : World) (bento_tag : Tag) (llm : LLM) (quantize template : option string)
    (adapter_map : option (gmap string string)) (extra : option (list string))
    (serialisation : option string) (fs fs' : FS) (bento : Bento) :
  create_bento W bento_tag llm quantize template adapter_map extra serialisation fs
  = (Ok bento, fs') →
  ∀ k v,
    (k, v) ∈ [("_type", llm_type llm);
              ("_framework", __llm_backend__ llm);
              ("start_name", cfg_start_name (config llm));
              ("base_name_or_path", model_id llm);
              ("bundler", "openllm.bundle");
              ("openllm_version", metadata_version W "openllm");
              ("openllm_core_version", metadata_version W "openllm-core");
              ("openllm_client_version", metadata_version W "openllm-client")] →
    is_Some (labels (build_config bento) !! k)
    ∧ (adapter_map ≫= (.!! k) = None → labels (build_config bento) !! k = Some v)
    ∧ (∀ a, adapter_map ≫= (.!! k) = Some a → labels (build_config bento) !! k = Some a).
Proof.
  intros (fs2 & python_options & docker_options & _ & _ & Hlabels & _)%create_bento_ok k v Hkv.
  rewrite Hlabels.
  assert (Hown : adapter_map ≫= (.!! k) = None →
                 bento_labels W llm adapter_map !! k = Some v).
  { intros Hnone. rewrite bento_labels_own by done.
    apply lookup_union_Some_l. rewrite version_labels_eq.
    set_unfold in Hkv.
    destruct Hkv as [Hkv|[Hkv|[Hkv|[Hkv|[Hkv|[Hkv|[Hkv|[Hkv|[]]]]]]]]];
      injection Hkv as -> ->;
      repeat (rewrite lookup_insert_ne by discriminate); apply lookup_insert_eq. }
  assert (Hadapter : ∀ a, adapter_map ≫= (.!! k) = Some a →
                          bento_labels W llm adapter_map !! k = Some a).
  { intros a Ha. destruct adapter_map as [m|]; [|discriminate].
    by apply bento_labels_adapter. }
  split; [|by split].
  destruct (adapter_map ≫= (.!! k)) as [a|] eqn:Hk.
  - rewrite (Hadapter a) by done. by eexists.
  - rewrite Hown by done. by eexists.
Qed.

Lemma bento_labels_entries_witness :
  ∃ bento fs',
    create_bento Sample.world Sample.bento_tag Sample.falcon None None None None None
      Sample.empty_fs = (Ok bento, fs')
    ∧ labels (build_config bento) !! "bundler" = Some "openllm.bundle".
Proof.
  eexists _, _. split; [vm_compute; reflexivity|].
  refine (proj1 (proj2 (bento_labels_entries Sample.world Sample.bento_tag Sample.falcon
                          None None None None None Sample.empty_fs _ _ _
                          "bundler" "openllm.bundle" _)) eq_refl).
  - vm_compute; reflexivity.
  - apply list_elem_of_In. simpl. tauto.
Defined.

(** C7 as stated fails when the adapter map has an entry under one of these
    keys: the bento is built, and its [bundler] label is the adapter's
    entry, not ['openllm.bundle']. *)
Lemma bento_labels_bundler_overridden :
  ∃ bento fs',
    create_bento Sample.world Sample.bento_tag Sample.falcon None None
      (Some {[ "bundler" := "lora-adapter" ]}) None None Sample.empty_fs = (Ok bento, fs')
    ∧ labels (build_config bento) !! "bundler" = Some "lora-adapter"
    ∧ labels (build_config bento) !! "bundler" ≠ Some "openllm.bundle".
Proof.
  eexists _, _. split; [vm_compute; reflexivity|].
  split; [vm_compute; reflexivity|]. vm_compute. discriminate.
Qed.

(** * Further properties of the packaging code *)

(** ** Path splitting (line 51) *)

Lemma split_nonempty (sep : ascii) (s : string) : split sep s ≠ [].
Proof.
  induction s as [|c s IH]; [done|]. simpl.
  destruct (Ascii.eqb c sep); [done|]. by destruct (split sep s).
Qed.

Lemma split_without_sep (sep : ascii) (s : string) :
  occurs sep s = false → split sep s = [s].
Proof.
  induction s as [|c s IH]; [done|]. simpl.
  destruct (Ascii.eqb c sep); [done|]. simpl. intros Hs. by rewrite IH.
Qed.

Lemma split_app_sep (sep : ascii) (d b : string) :
  split sep (d +:+ String sep b) = split sep d ++ split sep b.
Proof.
  induction d as [|c d IH].
  - change (split sep (String sep b) = "" :: split sep b).
    simpl. by rewrite Ascii.eqb_refl.
  - change (String c d +:+ String sep b) with (String c (d +:+ String sep b)).
    simpl. rewrite IH. destruct (Ascii.eqb c sep); [done|].
    pose proof (split_nonempty sep d). by destruct (split sep d).
Qed.

Lemma last_item_app (l1 l2 : list string) :
  l2 ≠ [] → last_item (l1 ++ l2) = last_item l2.
Proof.
  intros Hne. unfold last_item. induction l1 as [|x l1 IH]; [done|].
  simpl. rewrite IH. destruct (l1 ++ l2) eqn:Happ; [|done].
  by apply app_eq_nil in Happ as [_ ?].
Qed.

(** The last item of a split never holds the separator. *)
Lemma last_item_split_no_sep (sep : ascii) (s : string) :
  occurs sep (last_item (split sep s)) = false.
Proof.
  unfold last_item. induction s as [|c s IH]; [done|]. simpl.
  pose proof (split_nonempty sep s) as Hne.
  destruct (Ascii.eqb c sep) eqn:Hc.
  - by destruct (split sep s).
  - destruct (split sep s) as [|h [|h' t]]; [done| |done].
    simpl in *. by rewrite Hc.
Qed.

(** The last item of [dir/base] is [base]. *)
Lemma last_item_split_path (d b : string) :
  occurs "/" b = false → last_item (split "/" (d +:+ "/" +:+ b)) = b.
Proof.
  intros Hb. change (d +:+ "/" +:+ b) with (d +:+ String "/" b).
  rewrite split_app_sep, last_item_app by apply split_nonempty.
  by rewrite split_without_sep.
Qed.

(** ** More on [construct_python_options] *)


(** The three builds run in order, each on the state the previous one left. *)
Lemma built_wheels_unfold W fs :
  built_wheels W fs
  = match build_editable W (getsyspath W "/") "openllm_core" fs with
    | (Ok core, fs1) =>
        match build_editable W (getsyspath W "/") "openllm_client" fs1 with
        | (Ok client, fs2) =>
            match build_editable W (getsyspath W "/") "openllm" fs2 with
            | (Ok openllm, fs3) => (Ok [core; client; openllm], fs3)
            | (Raise e, fs3) => (Raise e, fs3)
            end
        | (Raise e, fs2) => (Raise e, fs2)
        end
    | (Raise e, fs1) => (Raise e, fs1)
    end.
Proof.
  unfold built_wheels. simpl. unfold bind, ret.
  destruct (build_editable W _ "openllm_core" fs) as [[core|?] fs1]; [|done].
  destruct (build_editable W _ "openllm_client" fs1) as [[client|?] fs2]; [|done].
  by destruct (build_editable W _ "openllm" fs2) as [[openllm|?] fs3].
Qed.

Lemma construct_python_options_raises W llm extra adapter fs e fs' :
  construct_python_options W llm extra adapter fs = (Raise e, fs') →
  built_wheels W fs = (Raise e, fs').
Proof.
  unfold construct_python_options, bind.
  by destruct (built_wheels W fs) as [[built|?] fs1]; intros [= <- <-].
Qed.

(** X1: [construct_python_options] raises exactly when one of the three
    editable builds raises, with the error and the filesystem state of the
    first build that fails; the builds after it are not run. *)
Theorem python_options_first_failure_wins
    (W : World) (llm : LLM) (extra : option (list string))
    (adapter : option (gmap string string)) (fs fs' : FS) (e : exn) :
  construct_python_options W llm extra adapter fs = (Raise e, fs')
  ↔ build_editable W (getsyspath W "/") "openllm_core" fs = (Raise e, fs')
    ∨ (∃ core fs1,
         build_editable W (getsyspath W "/") "openllm_core" fs = (Ok core, fs1)
         ∧ build_editable W (getsyspath W "/") "openllm_client" fs1 = (Raise e, fs'))
    ∨ (∃ core fs1 client fs2,
         build_editable W (getsyspath W "/") "openllm_core" fs = (Ok core, fs1)
         ∧ build_editable W (getsyspath W "/") "openllm_client" fs1 = (Ok client, fs2)
         ∧ build_editable W (getsyspath W "/") "openllm" fs2 = (Raise e, fs')).
Proof.
  split.
  - intros H%construct_python_options_raises. rewrite built_wheels_unfold in H.
    destruct (build_editable W _ "openllm_core" fs) as [[core|?] fs1] eqn:H1;
      [|injection H as <- <-; by left].
    destruct (build_editable W _ "openllm_client" fs1) as [[client|?] fs2] eqn:H2;
      [|injection H as <- <-; right; left; by exists core, fs1].
    destruct (build_editable W _ "openllm" fs2) as [[openllm|?] fs3] eqn:H3;
      [discriminate|].
    injection H as <- <-. right. right. by exists core, fs1, client, fs2.
  - unfold construct_python_options, bind. rewrite built_wheels_unfold.
    intros [H1|[(core & fs1 & H1 & H2)|(core & fs1 & client & fs2 & H1 & H2 & H3)]].
    + by rewrite H1.
    + by rewrite H1, H2.
    + by rewrite H1, H2, H3.
Qed.



(** X3: the package list holds exactly the three core requirements,
    [openllm[fine-tune]] when an adapter map is given (an empty one
    included), [openllm[k]] for each extra dependency [k], and the model's
    own requirements; its length is the sum of these parts, so nothing is
    merged or dropped. *)
Theorem python_packages_content
    (W : World) (llm : LLM) (extra : option (list string))
    (adapter : option (gmap string string)) :
  (∀ p, p ∈ python_packages W llm extra adapter
        ↔ p = "scipy" ∨ p = "bentoml[tracing]>=1.1.11,<1.2"
          ∨ p = "openllm[vllm]>=" +:+ release_version W
          ∨ (is_Some adapter ∧ p = "openllm[fine-tune]")
          ∨ (∃ k, k ∈ default [] extra ∧ p = "openllm[" +:+ k +:+ "]")
          ∨ p ∈ default [] (cfg_requirements (config llm)))
  ∧ length (python_packages W llm extra adapter)
    = (3 + (match adapter with Some _ => 1 | None => 0 end) + length (default [] extra)
       + length (default [] (cfg_requirements (config llm))))%nat.
Proof.
  rewrite python_packages_eq. split.
  - intros p.
    assert (Hadapter :
      p ∈ match adapter with Some _ => ["openllm[fine-tune]"] | None => [] end
      ↔ is_Some adapter ∧ p = "openllm[fine-tune]").
    { destruct adapter as [m|].
      - rewrite list_elem_of_singleton. split; [by eauto|by intros [_ ?]].
      - rewrite elem_of_nil. split; [done|]. by intros [[m Hm] _]. }
    assert (Hextra :
      p ∈ match extra with
          | Some deps => (λ k, "openllm[" +:+ k +:+ "]") <$> deps
          | None => []
          end
      ↔ ∃ k, k ∈ default [] extra ∧ p = "openllm[" +:+ k +:+ "]").
    { destruct extra as [deps|]; simpl.
      - rewrite list_elem_of_fmap. split; intros (k & ? & ?); by exists k.
      - rewrite elem_of_nil. split; [done|]. by intros (k & ?%elem_of_nil & _). }
    assert (Hreqs :
      p ∈ match cfg_requirements (config llm) with Some reqs => reqs | None => [] end
      ↔ p ∈ default [] (cfg_requirements (config llm))).
    { by destruct (cfg_requirements (config llm)). }
    rewrite !elem_of_app, Hadapter, Hextra, Hreqs, !elem_of_cons, elem_of_nil. tauto.
  - rewrite !length_app.
    destruct adapter as [m|], extra as [deps|],
      (cfg_requirements (config llm)) as [reqs|];
      simpl; rewrite ?length_fmap; lia.
Qed.

(** X4: when a wheel list is returned it has three entries, one per build
    and in build order, and each names a file directly under the staging
    root: [getsyspath] of a slash followed by a name without any slash. *)
Theorem python_wheels_are_file_names
    (W : World) (llm : LLM) (extra : option (list string))
    (adapter : option (gmap string string)) (fs fs' : FS) (options : PythonOptions)
    (ws : list string) :
  construct_python_options W llm extra adapter fs = (Ok options, fs') →
  wheels options = Some ws →
  length ws = 3%nat
  ∧ ∀ w, w ∈ ws → ∃ name, w = getsyspath W ("/" +:+ name) ∧ occurs "/" name = false.
Proof.
  intros (built & Hbuilt & ->)%construct_python_options_ok. simpl.
  rewrite built_wheels_unfold in Hbuilt.
  destruct (build_editable W _ "openllm_core" fs) as [[core|?] fs1]; [|discriminate].
  destruct (build_editable W _ "openllm_client" fs1) as [[client|?] fs2]; [|discriminate].
  destruct (build_editable W _ "openllm" fs2) as [[openllm|?] fs3]; [|discriminate].
  injection Hbuilt as <- <-.
  unfold wheel_paths, all_truthy. simpl.
  destruct core as [w1|], client as [w2|], openllm as [w3|];
    simpl; rewrite ?andb_false_r; try discriminate.
  destruct (truthy w1 && (truthy w2 && (truthy w3 && true))); [|discriminate].
  intros [= <-]. split; [done|].
  intros w. rewrite !elem_of_cons, elem_of_nil.
  intros [->|[->|[->|[]]]]; eexists; (split; [done|apply last_item_split_no_sep]).
Qed.

Lemma python_wheels_are_file_names_witness :
  construct_python_options Sample.dev_world Sample.falcon None None Sample.empty_fs
  = (Ok {| packages := packages Sample.plain_options;
           wheels := Some ["/tmp/llm_fs/pkg-0.4.44-py3-none-any.whl";
                           "/tmp/llm_fs/pkg-0.4.44-py3-none-any.whl";
                           "/tmp/llm_fs/pkg-0.4.44-py3-none-any.whl"];
           lock_packages := false |}, Sample.empty_fs)
  ∧ length ["/tmp/llm_fs/pkg-0.4.44-py3-none-any.whl";
            "/tmp/llm_fs/pkg-0.4.44-py3-none-any.whl";
            "/tmp/llm_fs/pkg-0.4.44-py3-none-any.whl"] = 3%nat.
Proof.
  assert (H : construct_python_options Sample.dev_world Sample.falcon None None
                Sample.empty_fs
              = (Ok {| packages := packages Sample.plain_options;
                       wheels := Some ["/tmp/llm_fs/pkg-0.4.44-py3-none-any.whl";
                                       "/tmp/llm_fs/pkg-0.4.44-py3-none-any.whl";
                                       "/tmp/llm_fs/pkg-0.4.44-py3-none-any.whl"];
                       lock_packages := false |}, Sample.empty_fs)) by reflexivity.
  split; [exact H|].
  exact (proj1 (python_wheels_are_file_names _ _ _ _ _ _ _ _ H eq_refl)).
Defined.

(** X5: in development mode, when the three builds come back with the paths
    [d1/b1], [d2/b2] and [d3/b3] (no slash in the [b]s), the options carry
    the core-first package list, the wheels [/b1], [/b2], [/b3] under the
    staging root, and no package locking. *)
Theorem python_options_with_wheels
    (W : World) (llm : LLM) (extra : option (list string))
    (adapter : option (gmap string string)) (fs fs' : FS) (d1 b1 d2 b2 d3 b3 : string) :
  built_wheels W fs
  = (Ok [Some (d1 +:+ "/" +:+ b1); Some (d2 +:+ "/" +:+ b2); Some (d3 +:+ "/" +:+ b3)], fs') →
  occurs "/" b1 = false → occurs "/" b2 = false → occurs "/" b3 = false →
  construct_python_options W llm extra adapter fs
  = (Ok {| packages := python_packages W llm extra adapter;
           wheels := Some [getsyspath W ("/" +:+ b1); getsyspath W ("/" +:+ b2);
                           getsyspath W ("/" +:+ b3)];
           lock_packages := false |}, fs').
Proof.
  intros Hbuilt Hb1 Hb2 Hb3. unfold construct_python_options, bind. rewrite Hbuilt.
  unfold ret, wheel_paths, all_truthy. simpl.
  assert (Htruthy : ∀ d b, truthy (d +:+ "/" +:+ b) = true) by (by intros [|? ?] ?).
  rewrite !Htruthy. simpl. by rewrite !last_item_split_path.
Qed.

Lemma python_options_with_wheels_witness :
  built_wheels Sample.dev_world Sample.empty_fs
  = (Ok [Some ("/tmp/llm_fs/dist" +:+ "/" +:+ "pkg-0.4.44-py3-none-any.whl");
         Some ("/tmp/llm_fs/dist" +:+ "/" +:+ "pkg-0.4.44-py3-none-any.whl");
         Some ("/tmp/llm_fs/dist" +:+ "/" +:+ "pkg-0.4.44-py3-none-any.whl")],
     Sample.empty_fs)
  ∧ construct_python_options Sample.dev_world Sample.falcon None None Sample.empty_fs
    = (Ok {| packages := python_packages Sample.dev_world Sample.falcon None None;
             wheels := Some [getsyspath Sample.dev_world
                               ("/" +:+ "pkg-0.4.44-py3-none-any.whl");
                             getsyspath Sample.dev_world
                               ("/" +:+ "pkg-0.4.44-py3-none-any.whl");
                             getsyspath Sample.dev_world
                               ("/" +:+ "pkg-0.4.44-py3-none-any.whl")];
             lock_packages := false |}, Sample.empty_fs).
Proof.
  split; [reflexivity|].
  exact (python_options_with_wheels Sample.dev_world Sample.falcon None None
           Sample.empty_fs Sample.empty_fs
           "/tmp/llm_fs/dist" "pkg-0.4.44-py3-none-any.whl"
           "/tmp/llm_fs/dist" "pkg-0.4.44-py3-none-any.whl"
           "/tmp/llm_fs/dist" "pkg-0.4.44-py3-none-any.whl"
           eq_refl eq_refl eq_refl eq_refl).
Defined.

(** ** More on [construct_docker_options] *)

Section DockerEnv.
Variables (W : World) (llm : LLM).

(** The environment that [process_environ] hands back (line 59). *)
Local Abbreviation environ :=
  (process_environ W (config llm) (cfg_timeout (config llm)) (Float 1 0) None true
     (model_id llm) None (_serialisation llm) llm false).

(** X6: in the returned environment [OPENLLM_CONFIG] is the processed value
    wrapped in single quotes, and the options ask for Python 3.11 and carry
    the Dockerfile template they were given. *)
Theorem docker_env_quotes_config
    (quantize : option string) (adapter_map : option (gmap string string))
    (template : option string) (serialisation : string) (fs fs' : FS)
    (options : DockerOptions) :
  construct_docker_options W llm quantize adapter_map template serialisation fs
  = (Ok options, fs') →
  (∃ openllm_config,
     environ !! "OPENLLM_CONFIG" = Some openllm_config
     ∧ env options !! "OPENLLM_CONFIG" = Some ("'" +:+ openllm_config +:+ "'"))
  ∧ python_version options = "3.11"
  ∧ dockerfile_template options = template.
Proof.
  intros H. pose proof (construct_docker_options_ok _ _ _ _ _ _ _ _ _ H)
    as (_ & c & Hc & Henv).
  split.
  - exists c. split; [done|]. rewrite Henv.
    rewrite lookup_insert_ne by discriminate.
    rewrite lookup_delete_ne by discriminate. apply lookup_insert_eq.
  - revert H. unfold construct_docker_options, bind, lift, getitem. rewrite Hc.
    by intros [= <- _].
Qed.

(** X7: every other variable of the processed environment reaches the
    container unchanged, and no variable is invented: apart from
    [OPENLLM_CONFIG], [BENTOML_HOME] and [NVIDIA_DRIVER_CAPABILITIES], the
    returned environment and the processed one agree on every name. *)
Theorem docker_env_keeps_other_variables
    (quantize : option string) (adapter_map : option (gmap string string))
    (template : option string) (serialisation : string) (fs fs' : FS)
    (options : DockerOptions) :
  construct_docker_options W llm quantize adapter_map template serialisation fs
  = (Ok options, fs') →
  (∀ k, k ≠ "OPENLLM_CONFIG" → k ≠ "BENTOML_HOME" → k ≠ "NVIDIA_DRIVER_CAPABILITIES" →
        env options !! k = environ !! k)
  ∧ dom (env options) = (dom environ ∖ {["BENTOML_HOME"]}) ∪ {["NVIDIA_DRIVER_CAPABILITIES"]}.
Proof.
  intros (_ & c & Hc & ->)%construct_docker_options_ok. split.
  - intros k H1 H2 H3.
    rewrite lookup_insert_ne by done. rewrite lookup_delete_ne by done.
    by rewrite lookup_insert_ne.
  - rewrite dom_insert_L, dom_delete_L, dom_insert_L.
    assert (Hin : "OPENLLM_CONFIG" ∈ dom environ) by (apply elem_of_dom; eauto).
    apply set_eq. intros k. rewrite !elem_of_union, !elem_of_difference, !elem_of_union,
      !elem_of_singleton.
    split.
    + intros [-> | [[-> | Hk] Hhome]]; [by right|by left|by left].
    + intros [[Hk Hhome] | ->]; [right|by left]. split; [by right|done].
Qed.

(** X8: [construct_docker_options] fails exactly when the processed
    environment has no [OPENLLM_CONFIG]; the error is then [KeyError] on
    that name, nothing else can be raised, and the staging filesystem is
    left as it was either way. *)
Theorem docker_options_key_error
    (quantize : option string) (adapter_map : option (gmap string string))
    (template : option string) (serialisation : string) (fs : FS) :
  (environ !! "OPENLLM_CONFIG" = None
   ↔ construct_docker_options W llm quantize adapter_map template serialisation fs
     = (Raise (KeyError "OPENLLM_CONFIG"), fs))
  ∧ (∀ e fs',
       construct_docker_options W llm quantize adapter_map template serialisation fs
       = (Raise e, fs') →
       e = KeyError "OPENLLM_CONFIG" ∧ fs' = fs)
  ∧ (construct_docker_options W llm quantize adapter_map template serialisation fs).2 = fs.
Proof.
  unfold construct_docker_options, bind, lift, getitem.
  destruct (environ !! "OPENLLM_CONFIG") as [c|]; simpl.
  - split; [done|]. split; [|done]. intros e fs'. discriminate.
  - split; [done|]. split; [|done]. by intros e fs' [= <- <-].
Qed.

End DockerEnv.

Lemma docker_env_quotes_config_witness :
  ∃ options,
    construct_docker_options Sample.world Sample.falcon None None (Some "Dockerfile.j2")
      "safetensors" Sample.empty_fs = (Ok options, Sample.empty_fs)
    ∧ env options !! "OPENLLM_CONFIG" = Some "'{}'"
    ∧ dockerfile_template options = Some "Dockerfile.j2".
Proof.
  eexists. split; [reflexivity|].
  destruct (docker_env_quotes_config Sample.world Sample.falcon None None
              (Some "Dockerfile.j2") "safetensors" Sample.empty_fs Sample.empty_fs _
              eq_refl) as ((c & Hc & Hquoted) & _ & Htemplate).
  split; [|exact Htemplate].
  injection Hc as <-. exact Hquoted.
Defined.

Lemma docker_env_keeps_other_variables_witness :
  ∃ options,
    construct_docker_options Sample.world Sample.falcon None None None "safetensors"
      Sample.empty_fs = (Ok options, Sample.empty_fs)
    ∧ env options !! "PATH" = None.
Proof.
  eexists. split; [reflexivity|].
  rewrite (proj1 (docker_env_keeps_other_variables Sample.world Sample.falcon None None
                    None "safetensors" Sample.empty_fs Sample.empty_fs _ eq_refl)
             "PATH") by discriminate.
  reflexivity.
Defined.

(** ** More on the labels (lines 81-91) *)

Section MoreLabels.
Variables (W : World) (llm : LLM).

(** X9: the label names are the eight names set by [create_bento], the
    names of the identifying parameters and the names of the adapter map;
    nothing else is a label and none of these is left out. *)
Theorem bento_labels_names (adapter_map : option (gmap string string)) :
  dom (bento_labels W llm adapter_map)
  = {[ "_type"; "_framework"; "start_name"; "base_name_or_path"; "bundler";
       "openllm_version"; "openllm_core_version"; "openllm_client_version" ]}
    ∪ dom (identifying_params llm)
    ∪ dom (default ∅ adapter_map).
Proof.
  unfold bento_labels. rewrite version_labels_eq.
  destruct adapter_map as [m|]; simpl.
  - case_decide as Hm.
    + subst m. rewrite dom_union_L, !dom_insert_L, !dom_empty_L.
      apply set_eq. intros k. rewrite !elem_of_union, !elem_of_singleton, !elem_of_empty.
      tauto.
    + rewrite !dom_union_L, !dom_insert_L, !dom_empty_L.
      apply set_eq. intros k. rewrite !elem_of_union, !elem_of_singleton, !elem_of_empty.
      tauto.
  - rewrite dom_union_L, !dom_insert_L, !dom_empty_L.
    apply set_eq. intros k. rewrite !elem_of_union, !elem_of_singleton, !elem_of_empty.
    tauto.
Qed.

(** X10: an identifying parameter is a label under its own name unless one
    of the eight fixed names or an adapter-map entry takes that name. *)
Theorem bento_labels_identifying_params (adapter_map : option (gmap string string))
    (k : string) :
  k ∉ ["_type"; "_framework"; "start_name"; "base_name_or_path"; "bundler";
       "openllm_version"; "openllm_core_version"; "openllm_client_version"] →
  adapter_map ≫= (.!! k) = None →
  bento_labels W llm adapter_map !! k = identifying_params llm !! k.
Proof.
  intros Hfixed Hadapter. rewrite bento_labels_own by done.
  apply lookup_union_r. rewrite version_labels_eq.
  rewrite !not_elem_of_cons in Hfixed.
  destruct Hfixed as (? & ? & ? & ? & ? & ? & ? & ? & _).
  by rewrite !lookup_insert_ne, lookup_empty.
Qed.

(** X11: an empty adapter map changes no label, but it still adds the
    fine-tune requirement: the two uses test the map differently
    ([if adapter_map] against [is not None]). *)
Theorem empty_adapter_map_labels_and_packages (extra : option (list string)) :
  bento_labels W llm (Some ∅) = bento_labels W llm None
  ∧ "openllm[fine-tune]" ∈ python_packages W llm extra (Some ∅)
  ∧ length (python_packages W llm extra (Some ∅))
    = S (length (python_packages W llm extra None)).
Proof.
  split; [|split].
  - unfold bento_labels. by case_decide.
  - rewrite python_packages_eq. set_solver.
  - rewrite !python_packages_eq, !length_app. simpl. lia.
Qed.

End MoreLabels.

Lemma bento_labels_identifying_params_witness :
  ("model_id" ∉ ["_type"; "_framework"; "start_name"; "base_name_or_path"; "bundler";
                 "openllm_version"; "openllm_core_version"; "openllm_client_version"])
  ∧ (Some ({[ "lora" := "adapter-1" ]} : gmap string string) ≫= (.!! "model_id") = None)
  ∧ bento_labels Sample.world Sample.falcon (Some {[ "lora" := "adapter-1" ]}) !! "model_id"
    = Some "tiiuae/falcon-7b".
Proof.
  assert (H : "model_id" ∉ ["_type"; "_framework"; "start_name"; "base_name_or_path";
                            "bundler"; "openllm_version"; "openllm_core_version";
                            "openllm_client_version"]).
  { rewrite !not_elem_of_cons. repeat split; try discriminate. apply not_elem_of_nil. }
  assert (Hnone : Some ({[ "lora" := "adapter-1" ]} : gmap string string)
                    ≫= (.!! "model_id") = None) by (vm_compute; reflexivity).
  split; [exact H|]. split; [exact Hnone|].
  rewrite (bento_labels_identifying_params Sample.world Sample.falcon
             (Some {[ "lora" := "adapter-1" ]}) "model_id" H Hnone).
  vm_compute; reflexivity.
Defined.

(** ** More on [create_bento] *)

Section MoreCreateBento.
Variable W : World.

(** The staging filesystem once the two generated files are written. *)
Lemma create_bento_unfold bento_tag llm quantize template adapter_map extra serialisation
    fs script :
  service_vars_script W llm adapter_map = Ok script →
  create_bento W bento_tag llm quantize template adapter_map extra serialisation fs
  = match construct_python_options W llm extra adapter_map
            {| fs_files := <[cfg_service_name (config llm) := service_file_text W]>
                             (<["_service_vars.py" := script]> (fs_files fs));
               fs_writes := (fs_writes fs ++ [("_service_vars.py", script)])
                            ++ [(cfg_service_name (config llm), service_file_text W)] |}
    with
    | (Raise e, fs3) => (Raise e, fs3)
    | (Ok python_options, fs3) =>
        match construct_docker_options W llm quantize adapter_map template
                (first_not_none W serialisation (cfg_serialisation (config llm))) fs3
        with
        | (Raise e, fs4) => (Raise e, fs4)
        | (Ok docker_options, fs4) =>
            match bento_create_save W
                    {| version := tag_version bento_tag;
                       build_ctx := getsyspath W "/";
                       build_config :=
                         {| service := cfg_service_name (config llm) +:+ ":svc";
                            name := tag_name bento_tag;
                            labels := bento_labels W llm adapter_map;
                            models := [{| spec_tag := str_tag W (tag llm);
                                          spec_alias := tag_name (tag llm) |}];
                            description :=
                              "OpenLLM service for " +:+ cfg_start_name (config llm);
                            include :=
                              (map_to_list
                                 (<[cfg_service_name (config llm) := service_file_text W]>
                                    (<["_service_vars.py" := script]> (fs_files fs)))).*1;
                            exclude := ["/venv"; "/.venv"; "__pycache__/"; "*.py[cod]";
                                        "*$py.class"];
                            python := python_options;
                            docker := docker_options |} |}
            with
            | None =>
                (Ok {| version := tag_version bento_tag;
                       build_ctx := getsyspath W "/";
                       build_config :=
                         {| service := cfg_service_name (config llm) +:+ ":svc";
                            name := tag_name bento_tag;
                            labels := bento_labels W llm adapter_map;
                            models := [{| spec_tag := str_tag W (tag llm);
                                          spec_alias := tag_name (tag llm) |}];
                            description :=
                              "OpenLLM service for " +:+ cfg_start_name (config llm);
                            include :=
                              (map_to_list
                                 (<[cfg_service_name (config llm) := service_file_text W]>
                                    (<["_service_vars.py" := script]> (fs_files fs)))).*1;
                            exclude := ["/venv"; "/.venv"; "__pycache__/"; "*.py[cod]";
                                        "*$py.class"];
                            python := python_options;
                            docker := docker_options |} |}, fs4)
            | Some failure => (Raise (Propagated failure), fs4)
            end
        end
    end.
Proof.
  intros Hscript. unfold create_bento. rewrite Hscript.
  unfold bind at 1. unfold lift. unfold bind at 1. unfold writetext at 1.
  unfold bind at 1. unfold writetext at 1.
  unfold bind at 1. unfold walk_files at 1. simpl fs_files. simpl fs_writes.
  unfold bind at 1.
  destruct (construct_python_options W llm extra adapter_map _)
    as [[python_options|?] fs3]; [|done].
  unfold bind at 1.
  destruct (construct_docker_options W llm quantize adapter_map template _ fs3)
    as [[docker_options|?] fs4]; [|done].
  by destruct (bento_create_save W _).
Qed.

End MoreCreateBento.


Lemma construct_docker_options_state W llm quantize adapter_map template serialisation fs :
  (construct_docker_options W llm quantize adapter_map template serialisation fs).2 = fs.
Proof.
  unfold construct_docker_options, bind, lift, getitem.
  by destruct (process_environ _ _ _ _ _ _ _ _ _ _ _ !! "OPENLLM_CONFIG").
Qed.



(** X13: outside development mode an invocation, whether it returns or
    raises, leaves the staging filesystem with exactly two files changed:
    the service file holds the text of [_service.py], and
    [_service_vars.py] holds the generated script unless the configured
    service name is [_service_vars.py] itself, in which case the service
    text replaces the script.  Nothing is rolled back on failure. *)
Theorem create_bento_stages_two_files
    (W : World) (bento_tag : Tag) (llm : LLM) (quantize template : option string)
    (adapter_map : option (gmap string string)) (extra : option (list string))
    (serialisation : option string) (fs : FS) :
  check_bool_env W OPENLLM_DEV_BUILD false = false →
  ∃ script,
    service_vars_script W llm adapter_map = Ok script
    ∧ fs_files
        (create_bento W bento_tag llm quantize template adapter_map extra serialisation
           fs).2
      = <[cfg_service_name (config llm) := service_file_text W]>
          (<["_service_vars.py" := script]> (fs_files fs))
    ∧ fs_files
        (create_bento W bento_tag llm quantize template adapter_map extra serialisation
           fs).2 !! cfg_service_name (config llm)
      = Some (service_file_text W)
    ∧ (cfg_service_name (config llm) ≠ "_service_vars.py" →
       fs_files
         (create_bento W bento_tag llm quantize template adapter_map extra serialisation
            fs).2 !! "_service_vars.py"
       = Some script)
    ∧ (∀ p, p ≠ cfg_service_name (config llm) → p ≠ "_service_vars.py" →
         fs_files
           (create_bento W bento_tag llm quantize template adapter_map extra serialisation
              fs).2 !! p
         = fs_files fs !! p).
Proof.
  intros Hflag. eexists. split; [apply service_vars_script_eq|].
  assert (Hfiles :
    fs_files
      (create_bento W bento_tag llm quantize template adapter_map extra serialisation fs).2
    = <[cfg_service_name (config llm) := service_file_text W]>
        (<["_service_vars.py" :=
             "# fmt: off" +:+ nl +:+ "# GENERATED BY 'openllm build " +:+ model_id llm
             +:+ "'. DO NOT EDIT" +:+ nl
             +:+ "import orjson;model_id,model_tag,adapter_map,serialization,trust_remote_code,max_model_len,gpu_memory_utilization='"
             +:+ model_id llm +:+ "','" +:+ str_tag W (tag llm) +:+ "',orjson.loads(" +:+ dq3
             +:+ orjson_dumps W adapter_map +:+ dq3 +:+ "),'"
             +:+ cfg_serialisation (config llm)
             +:+ "'," +:+ str_bool (trust_remote_code llm)
             +:+ "," +:+ str_opt_int (_max_model_len llm)
             +:+ "," +:+ str_float W (_gpu_memory_utilization llm)]> (fs_files fs))).
  { rewrite (create_bento_unfold W _ _ _ _ _ _ _ _ _
               (service_vars_script_eq W llm adapter_map)).
    rewrite (construct_python_options_disabled W _ _ _ _ Hflag).
    match goal with
    | |- context [construct_docker_options ?w ?l ?q ?a ?t ?s ?f] =>
        pose proof (construct_docker_options_state w l q a t s f) as Hstate;
        destruct (construct_docker_options w l q a t s f) as [[docker_options|?] fs4]
    end; simpl in Hstate; subst fs4; [|done].
    by destruct (bento_create_save W _). }
  rewrite Hfiles. split; [done|]. split; [apply lookup_insert_eq|]. split.
  - intros Hne. rewrite lookup_insert_ne by done. apply lookup_insert_eq.
  - intros p Hp1 Hp2. by rewrite !lookup_insert_ne.
Qed.

Lemma create_bento_stages_two_files_witness :
  check_bool_env Sample.world OPENLLM_DEV_BUILD false = false
  ∧ fs_files
      (create_bento Sample.world Sample.bento_tag Sample.falcon None None None None None
         Sample.empty_fs).2 !! "generated_falcon_service.py"
    = Some "svc = bentoml.Service(name='llm-service')".
Proof.
  split; [reflexivity|].
  destruct (create_bento_stages_two_files Sample.world Sample.bento_tag Sample.falcon
              None None None None None Sample.empty_fs eq_refl)
    as (script & _ & _ & Hservice & _).
  exact Hservice.
Defined.



(** X15: the [quantize] and [serialisation] arguments of [create_bento] have
    no effect: whatever their values, the result and the staging filesystem
    are the same. *)
Theorem create_bento_ignores_quantize_and_serialisation
    (W : World) (bento_tag : Tag) (llm : LLM) (quantize quantize' template : option string)
    (adapter_map : option (gmap string string)) (extra : option (list string))
    (serialisation serialisation' : option string) (fs : FS) :
  create_bento W bento_tag llm quantize template adapter_map extra serialisation fs
  = create_bento W bento_tag llm quantize' template adapter_map extra serialisation' fs.
Proof.
  rewrite !(create_bento_unfold W _ _ _ _ _ _ _ _ _
              (service_vars_script_eq W llm adapter_map)).
  destruct (construct_python_options _ _ _ _ _) as [[python_options|?] fs3]; [|done].
  reflexivity.
Qed.

(** X16: outside development mode, and when the processed environment
    carries [OPENLLM_CONFIG], the outcome of [create_bento] is the bundler's:
    the bento it was asked to build (named and versioned after the bento tag,
    serving [<service name>:svc], with one model aliased to the tag name and
    without wheels) when the bundler accepts it, the bundler's failure
    otherwise. *)
Theorem create_bento_outcome_is_the_bundlers
    (W : World) (bento_tag : Tag) (llm : LLM) (quantize template : option string)
    (adapter_map : option (gmap string string)) (extra : option (list string))
    (serialisation : option string) (fs : FS) :
  check_bool_env W OPENLLM_DEV_BUILD false = false →
  is_Some (process_environ W (config llm) (cfg_timeout (config llm)) (Float 1 0) None true
             (model_id llm) None (_serialisation llm) llm false !! "OPENLLM_CONFIG") →
  ∃ bento,
    (create_bento W bento_tag llm quantize template adapter_map extra serialisation fs).1
    = match bento_create_save W bento with
      | None => Ok bento
      | Some why => Raise (Propagated why)
      end
    ∧ version bento = tag_version bento_tag
    ∧ build_ctx bento = getsyspath W "/"
    ∧ name (build_config bento) = tag_name bento_tag
    ∧ service (build_config bento) = cfg_service_name (config llm) +:+ ":svc"
    ∧ models (build_config bento)
      = [{| spec_tag := str_tag W (tag llm); spec_alias := tag_name (tag llm) |}]
    ∧ packages (python (build_config bento)) = python_packages W llm extra adapter_map
    ∧ wheels (python (build_config bento)) = None
    ∧ labels (build_config bento) = bento_labels W llm adapter_map.
Proof.
  intros Hflag [c Hc].
  rewrite (create_bento_unfold W _ _ _ _ _ _ _ _ _ (service_vars_script_eq W llm adapter_map)).
  rewrite (construct_python_options_disabled W _ _ _ _ Hflag).
  unfold construct_docker_options at 1. unfold bind, lift, getitem. rewrite Hc.
  unfold ret.
  match goal with |- context [bento_create_save W ?b] => exists b end.
  split; [|done]. by destruct (bento_create_save W _).
Qed.

Lemma create_bento_outcome_is_the_bundlers_witness :
  check_bool_env Sample.world OPENLLM_DEV_BUILD false = false
  ∧ ∃ bento,
      (create_bento Sample.world Sample.bento_tag Sample.falcon None None None None None
         Sample.empty_fs).1 = Ok bento
      ∧ name (build_config bento) = "tiiuae--falcon-7b-service".
Proof.
  split; [reflexivity|].
  destruct (create_bento_outcome_is_the_bundlers Sample.world Sample.bento_tag
              Sample.falcon None None None None None Sample.empty_fs eq_refl)
    as (bento & Hrun & _ & _ & Hname & _).
  - exists "{}". vm_compute; reflexivity.
  - exists bento. split; [exact Hrun|exact Hname].
Defined.

(** ** The template *)

(** The rendering, field by field in template order. *)
Lemma format_service_vars (kw : kwargs) :
  format _SERVICE_VARS kw
  = match kw_get "__model_id__" kw with
    | None => Raise (KeyError "__model_id__")
    | Some v1 =>
    match kw_get "__model_tag__" kw with
    | None => Raise (KeyError "__model_tag__")
    | Some v2 =>
    match kw_get "__model_adapter_map__" kw with
    | None => Raise (KeyError "__model_adapter_map__")
    | Some v3 =>
    match kw_get "__model_serialization__" kw with
    | None => Raise (KeyError "__model_serialization__")
    | Some v4 =>
    match kw_get "__model_trust_remote_code__" kw with
    | None => Raise (KeyError "__model_trust_remote_code__")
    | Some v5 =>
    match kw_get "__max_model_len__" kw with
    | None => Raise (KeyError "__max_model_len__")
    | Some v6 =>
    match kw_get "__gpu_memory_utilization__" kw with
    | None => Raise (KeyError "__gpu_memory_utilization__")
    | Some v7 =>
        Ok ("import orjson;model_id,model_tag,adapter_map,serialization,trust_remote_code,max_model_len,gpu_memory_utilization='"
            +:+ v1 +:+ "','" +:+ v2 +:+ "',orjson.loads(" +:+ dq3 +:+ v3 +:+ dq3
            +:+ "),'" +:+ v4 +:+ "'," +:+ v5 +:+ "," +:+ v6 +:+ "," +:+ v7 +:+ "")
    end end end end end end end.
Proof.
  unfold format. set (t := _SERVICE_VARS). vm_compute in t. subst t.
  cbv -[kw_get String.append].
  repeat (destruct (kw_get _ kw); [|reflexivity]). reflexivity.
Qed.

(** X17: rendering [_SERVICE_VARS] succeeds exactly when the keyword
    arguments supply its seven fields; otherwise it raises [KeyError] on a
    field that is missing. *)
Theorem service_vars_template_fields (kw : kwargs) :
  ((∃ text, format _SERVICE_VARS kw = Ok text)
   ↔ Forall (λ field, is_Some (kw_get field kw))
       ["__model_id__"; "__model_tag__"; "__model_adapter_map__";
        "__model_serialization__"; "__model_trust_remote_code__"; "__max_model_len__";
        "__gpu_memory_utilization__"])
  ∧ (∀ e, format _SERVICE_VARS kw = Raise e →
       ∃ field,
         field ∈ ["__model_id__"; "__model_tag__"; "__model_adapter_map__";
                  "__model_serialization__"; "__model_trust_remote_code__";
                  "__max_model_len__"; "__gpu_memory_utilization__"]
         ∧ kw_get field kw = None ∧ e = KeyError field).
Proof.
  rewrite format_service_vars, !Forall_cons, Forall_nil.
  destruct (kw_get "__model_id__" kw) as [v1|] eqn:H1.
  2:{ split; [split; [by intros [? ?]|by intros ([? ?] & _)]|].
      intros e [= <-]. eexists. split; [|done]. set_solver. }
  destruct (kw_get "__model_tag__" kw) as [v2|] eqn:H2.
  2:{ split; [split; [by intros [? ?]|by intros (_ & [? ?] & _)]|].
      intros e [= <-]. eexists. split; [|done]. set_solver. }
  destruct (kw_get "__model_adapter_map__" kw) as [v3|] eqn:H3.
  2:{ split; [split; [by intros [? ?]|by intros (_ & _ & [? ?] & _)]|].
      intros e [= <-]. eexists. split; [|done]. set_solver. }
  destruct (kw_get "__model_serialization__" kw) as [v4|] eqn:H4.
  2:{ split; [split; [by intros [? ?]|by intros (_ & _ & _ & [? ?] & _)]|].
      intros e [= <-]. eexists. split; [|done]. set_solver. }
  destruct (kw_get "__model_trust_remote_code__" kw) as [v5|] eqn:H5.
  2:{ split; [split; [by intros [? ?]|by intros (_ & _ & _ & _ & [? ?] & _)]|].
      intros e [= <-]. eexists. split; [|done]. set_solver. }
  destruct (kw_get "__max_model_len__" kw) as [v6|] eqn:H6.
  2:{ split; [split; [by intros [? ?]|by intros (_ & _ & _ & _ & _ & [? ?] & _)]|].
      intros e [= <-]. eexists. split; [|done]. set_solver. }
  destruct (kw_get "__gpu_memory_utilization__" kw) as [v7|] eqn:H7.
  2:{ split; [split; [by intros [? ?]|by intros (_ & _ & _ & _ & _ & _ & [? ?] & _)]|].
      intros e [= <-]. eexists. split; [|done]. set_solver. }
  split; [|discriminate]. split; [|by eauto]. intros _. repeat split; by eauto.
Qed.
